(** * llm-council-plus: the council-session presentation layer

    A shallow embedding of the client-side logic of
    [frontend/src/components/Stage1.jsx], [Stage2.jsx] and [Settings.jsx]:
    the short-name derivation and de-anonymisation of ranking text, the
    active-tab clamp of the stage views, and the settings editor (roster
    handlers, chairman option list, save handler).

    Conventions of the embedding.
    - A JavaScript string is the list of its UTF-16 code units ([jsstring]).
      [js "..."] injects an ASCII literal.
    - [null]/[undefined] are [None] of an [option]; an absent optional
      property is [None] too.
    - A JavaScript object used as a record of named fields sent over the
      wire is a [gmap string jsval] (assignment of a property is insertion).
    - React state is a record; a handler reads the state of the render it
      was created in and produces the next state, together with the list of
      calls it issued to the [api] collaborator.  The collaborator's answers
      are an input of the handler. *)

From Stdlib Require Import NArith ZArith Ascii String.
From stdpp Require Import base list option gmap strings.

Local Open Scope N_scope.
Local Open Scope list_scope.

(** ** JavaScript strings *)

Module JS.

Definition jsstring := list N.

Fixpoint js (s : string) : jsstring :=
  match s with
  | EmptyString => []
  | String a s' => N_of_ascii a :: js s'
  end.

Definition slash : N := 47.      (* '/' *)
Definition colon : N := 58.      (* ':' *)
Definition dollar : N := 36.     (* '$' *)
Definition ampersand : N := 38.  (* '&' *)
Definition backtick : N := 96.   (* '`' *)
Definition quote : N := 39.      (* ''' *)
Definition bullet : N := 8226.   (* U+2022 *)

(** [s.startsWith(p)] *)
Fixpoint startsWith (p s : jsstring) : bool :=
  match p, s with
  | [], _ => true
  | _ :: _, [] => false
  | a :: p', b :: s' => (a =? b) && startsWith p' s'
  end.

(** [s.includes(p)] *)
Fixpoint includes (p s : jsstring) : bool :=
  startsWith p s ||
  match s with
  | [] => false
  | _ :: s' => includes p s'
  end.

(** [s.split(sep)] for a separator of one code unit, the only use the
    sources make of it. *)
Fixpoint split (sep : N) (s : jsstring) : list jsstring :=
  match s with
  | [] => [[]]
  | c :: s' =>
      if c =? sep then [] :: split sep s'
      else match split sep s' with
           | seg :: segs => (c :: seg) :: segs
           | [] => [[c]]
           end
  end.

(** A string as a condition: the empty string is falsy. *)
Definition truthy (s : jsstring) : bool :=
  match s with
  | [] => false
  | _ :: _ => true
  end.

(** [x || d] where [x] is a string or [undefined]: the empty string and
    [undefined] are falsy. *)
Definition or_else (x : option jsstring) (d : jsstring) : jsstring :=
  match x with
  | Some (c :: r) => c :: r
  | _ => d
  end.

(** *** Regular expressions built from a string

    [new RegExp(pattern, 'g')] is modelled on the patterns that contain no
    syntax character: such a pattern matches exactly its own text.  Other
    patterns (which may also fail to compile) are outside the embedding:
    [RegExp_literal] answers [None] for them. *)

Definition syntax_chars : list N :=
  [94; 36; 92; 46; 42; 43; 63; 40; 41; 91; 93; 123; 125; 124].
  (* ^ $ \ . * + ? ( ) [ ] { } | *)

Definition is_syntax_char (c : N) : bool := existsb (N.eqb c) syntax_chars.

Definition is_literal (pattern : jsstring) : bool :=
  forallb (fun c => negb (is_syntax_char c)) pattern.

Definition RegExp_literal (pattern : jsstring) : option jsstring :=
  if is_literal pattern then Some pattern else None.

(** [GetSubstitution] of ECMA-262 for a match without capture groups:
    [$$] is a dollar, [$&] the match, [$`] the text before the match, [$']
    the text after it; any other [$] stands for itself. *)
Fixpoint GetSubstitution (matched before after template : jsstring) : jsstring :=
  match template with
  | [] => []
  | c :: t =>
      if c =? dollar then
        match t with
        | d :: t' =>
            if d =? dollar then dollar :: GetSubstitution matched before after t'
            else if d =? ampersand then matched ++ GetSubstitution matched before after t'
            else if d =? backtick then before ++ GetSubstitution matched before after t'
            else if d =? quote then after ++ GetSubstitution matched before after t'
            else c :: GetSubstitution matched before after t
        | [] => [c]
        end
      else c :: GetSubstitution matched before after t
  end.

(** [s.replace(re, template)] for a global literal regular expression with
    a non-empty pattern: the text is scanned from the left; at a match the
    substitution is emitted and the scan resumes after the match.  [seen] is
    the text already scanned, last code unit first; [skip] counts the code
    units of the current match still to pass over. *)
Fixpoint replace_scan (pat template seen : jsstring) (skip : nat) (s : jsstring)
  : jsstring :=
  match s with
  | [] => []
  | c :: s' =>
      match skip with
      | S k => replace_scan pat template (c :: seen) k s'
      | O =>
          if startsWith pat s then
            GetSubstitution pat (rev seen) (drop (length pat) s) template
              ++ replace_scan pat template (c :: seen) (length pat - 1) s'
          else c :: replace_scan pat template (c :: seen) 0 s'
      end
  end.

(** The empty pattern matches the empty string before every code unit and
    at the end of the text. *)
Fixpoint replace_empty (template seen s : jsstring) : jsstring :=
  GetSubstitution [] (rev seen) s template ++
  match s with
  | [] => []
  | c :: s' => c :: replace_empty template (c :: seen) s'
  end.

Definition replace_g (pat template s : jsstring) : jsstring :=
  match pat with
  | [] => replace_empty template [] s
  | _ :: _ => replace_scan pat template [] 0 s
  end.

(** The text made of the [pieces], each followed by [sep], and then of
    [last]. *)
Definition join_with (sep : jsstring) (pieces : list jsstring) (last : jsstring)
  : jsstring :=
  fold_right (fun p acc => p ++ sep ++ acc) last pieces.

End JS.

Import JS.

(** ** Stage2.jsx: short names and de-anonymisation *)

Module Stage2.

(** [getShortModelName(modelId)], Stage2.jsx lines 6-16. *)
Definition getShortModelName (modelId : option jsstring) : jsstring :=
  match modelId with
  | None => js "Unknown"
  | Some [] => js "Unknown"
  | Some id =>
      if includes [slash] id then or_else (split slash id !! 1%nat) id
      else if includes [colon] id then or_else (split colon id !! 1%nat) id
      else id
  end.

(** The replacement template [`**${modelShortName}**`]. *)
Definition bold (name : jsstring) : jsstring := js "**" ++ name ++ js "**".

(** One iteration of the [forEach] of [deAnonymizeText]. *)
Definition deAnonymizeStep (result : jsstring) (entry : jsstring * option jsstring)
  : option jsstring :=
  let '(label, model) := entry in
  let modelShortName := getShortModelName model in
  re ← RegExp_literal label;
  Some (replace_g re (bold modelShortName) result).

(** [deAnonymizeText(text, labelToModel)], Stage2.jsx lines 18-28.  The
    mapping object is given by its [Object.entries] sequence; [None] is an
    absent mapping.  The answer is [None] when a label is not a literal
    pattern. *)
Fixpoint deAnonymizeEntries (result : jsstring)
  (entries : list (jsstring * option jsstring)) : option jsstring :=
  match entries with
  | [] => Some result
  | entry :: rest =>
      result' ← deAnonymizeStep result entry;
      deAnonymizeEntries result' rest
  end.

Definition deAnonymizeText (text : jsstring)
  (labelToModel : option (list (jsstring * option jsstring))) : option jsstring :=
  match labelToModel with
  | None => Some text
  | Some entries => deAnonymizeEntries text entries
  end.

End Stage2.


(** ** The words of the specification, for comparison *)

Module SpecWords.

(** "the substring after the first [sep]" *)
Fixpoint after_first (sep : N) (s : jsstring) : jsstring :=
  match s with
  | [] => []
  | c :: s' => if c =? sep then s' else after_first sep s'
  end.

(** "if the id contains a '/', take the substring after the first '/';
    else if it contains a ':', take the substring after the first ':'; else
    use the id unchanged; an empty or missing id yields the literal string
    Unknown" *)
Definition short_name (modelId : option jsstring) : jsstring :=
  match modelId with
  | None | Some [] => js "Unknown"
  | Some id =>
      if includes [slash] id then after_first slash id
      else if includes [colon] id then after_first colon id
      else id
  end.

(** "labels are matched as whole tokens (word-boundary match)": an
    occurrence counts when no word character (letter, digit, underscore)
    stands right before or right after it. *)
Definition is_word_char (c : N) : bool :=
  ((48 <=? c) && (c <=? 57)) || ((65 <=? c) && (c <=? 90))
  || ((97 <=? c) && (c <=? 122)) || (c =? 95).

Definition starts_with_word_char (s : jsstring) : bool :=
  match s with
  | c :: _ => is_word_char c
  | [] => false
  end.

Fixpoint replace_tokens (label name : jsstring) (after_word : bool) (skip : nat)
  (s : jsstring) : jsstring :=
  match s with
  | [] => []
  | c :: s' =>
      match skip with
      | S k => replace_tokens label name (is_word_char c) k s'
      | O =>
          if negb after_word && startsWith label s
             && negb (starts_with_word_char (drop (length label) s))
          then name ++ replace_tokens label name (is_word_char c) (length label - 1) s'
          else c :: replace_tokens label name (is_word_char c) 0 s'
      end
  end.

(** "for each (label, modelId) pair in the mapping, replace every literal
    occurrence of label inside text with a bolded short display name", the
    occurrences being whole tokens. *)
Definition deanonymize (text : jsstring)
  (labelToModel : list (jsstring * option jsstring)) : jsstring :=
  fold_left
    (fun result entry =>
       replace_tokens (fst entry) (js "**" ++ short_name (snd entry) ++ js "**")
         false 0 result)
    labelToModel text.

End SpecWords.

(** ** Stage1.jsx and Stage2.jsx: the active tab of a stage view *)

Module StageTabs.

Section Tabs.
Context {A : Type}.

(** The effect of Stage1.jsx lines 11-15 and Stage2.jsx lines 34-38, run
    after a render with the collection [coll] ([responses], [rankings]) and
    the state [activeTab]; the result is the state [activeTab] afterwards. *)
Definition clampEffect (coll : option (list A)) (activeTab : nat) : nat :=
  match coll with
  | Some l =>
      if (0 <? length l)%nat && (length l <=? activeTab)%nat
      then (length l - 1)%nat
      else activeTab
  | None => activeTab
  end.

(** [safeActiveTab], Stage1.jsx line 22 and Stage2.jsx line 45: the tab that
    is drawn.  A missing or empty collection draws nothing ([None]). *)
Definition safeActiveTab (coll : option (list A)) (activeTab : nat) : option nat :=
  match coll with
  | Some (x :: l) => Some (Nat.min activeTab (length (x :: l) - 1))
  | _ => None
  end.

(** What happens to a stage view: the parent passes a new collection, or
    the user clicks the tab button of index [index] (a button exists for
    every index of the collection in place). *)
Inductive event :=
  | NewProps (coll : option (list A))
  | ClickTab (index : nat).

Record view := mkView { collection : option (list A); activeTab : nat }.

Definition tab_button_exists (v : view) (index : nat) : bool :=
  match collection v with
  | Some l => (index <? length l)%nat
  | None => false
  end.

(** One event, followed by the effect. *)
Definition step (v : view) (e : event) : view :=
  match e with
  | NewProps coll => mkView coll (clampEffect coll (activeTab v))
  | ClickTab index =>
      if tab_button_exists v index
      then mkView (collection v) (clampEffect (collection v) index)
      else v
  end.

Definition run (v : view) (es : list event) : view := fold_left step es v.

(** [useState(0)] with the first collection, after the first effect. *)
Definition mount (coll : option (list A)) : view := mkView coll (clampEffect coll 0).

(** The index is within the collection whenever it has entries. *)
Definition in_range (v : view) : Prop :=
  forall l, collection v = Some l -> l <> [] -> (activeTab v < length l)%nat.

End Tabs.

Arguments event : clear implicits.
Arguments view : clear implicits.

End StageTabs.

(** ** Settings.jsx *)

Module Settings.

(** A catalog entry, as [api.getModels()] returns it. *)
Record Model := mkModel { id : jsstring; name : jsstring; is_free : bool }.

(** An element of the [councilModels] array: a model id, or what an array
    written past its end contains: a hole ([Empty]); [Undefined] is what a
    hole becomes when the array is copied by spreading. *)
Inductive slot :=
  | Empty
  | Undefined
  | Id (modelId : jsstring).

(** Values of the fields of the update payload. *)
Inductive jsval :=
  | VString (s : jsstring)
  | VNumber (n : Z)
  | VArray (l : list slot).

(** The answer of [api.getSettings()]. *)
Record PersistedSettings := mkPersisted {
  search_provider : option jsstring;
  full_content_results : option Z;
  council_models : option (list jsstring);
  chairman_model : option jsstring;
  tavily_api_key_set : bool;
  brave_api_key_set : bool;
  openrouter_api_key_set : bool
}.

Record TestResult := mkTestResult { test_success : bool; message : jsstring }.

(** The answer of [api.getModels()]. *)
Record ModelsAnswer := mkModelsAnswer {
  models : option (list Model);
  models_error : option jsstring
}.

(** The twenty [useState] cells of the component, lines 30-49. *)
Record State := mkState {
  settings : option PersistedSettings;
  selectedProvider : jsstring;
  fullContentResults : Z;
  tavilyApiKey : jsstring;
  braveApiKey : jsstring;
  openrouterApiKey : jsstring;
  councilModels : list slot;
  chairmanModel : jsstring;
  availableModels : list Model;
  isLoadingModels : bool;
  showFreeOnly : bool;
  isSaving : bool;
  isTestingTavily : bool;
  isTestingBrave : bool;
  isTestingOpenRouter : bool;
  tavilyTestResult : option TestResult;
  braveTestResult : option TestResult;
  openrouterTestResult : option TestResult;
  error : option jsstring;
  success : bool
}.

(** The state after one [useState] setter has been applied. *)
Definition with_settings (v : option PersistedSettings) (st : State) : State :=
  mkState v (selectedProvider st) (fullContentResults st) (tavilyApiKey st)
    (braveApiKey st) (openrouterApiKey st) (councilModels st)
    (chairmanModel st) (availableModels st) (isLoadingModels st)
    (showFreeOnly st) (isSaving st) (isTestingTavily st) (isTestingBrave st)
    (isTestingOpenRouter st) (tavilyTestResult st) (braveTestResult st)
    (openrouterTestResult st) (error st) (success st).

Definition with_selectedProvider (v : jsstring) (st : State) : State :=
  mkState (settings st) v (fullContentResults st) (tavilyApiKey st)
    (braveApiKey st) (openrouterApiKey st) (councilModels st)
    (chairmanModel st) (availableModels st) (isLoadingModels st)
    (showFreeOnly st) (isSaving st) (isTestingTavily st) (isTestingBrave st)
    (isTestingOpenRouter st) (tavilyTestResult st) (braveTestResult st)
    (openrouterTestResult st) (error st) (success st).

Definition with_fullContentResults (v : Z) (st : State) : State :=
  mkState (settings st) (selectedProvider st) v (tavilyApiKey st)
    (braveApiKey st) (openrouterApiKey st) (councilModels st)
    (chairmanModel st) (availableModels st) (isLoadingModels st)
    (showFreeOnly st) (isSaving st) (isTestingTavily st) (isTestingBrave st)
    (isTestingOpenRouter st) (tavilyTestResult st) (braveTestResult st)
    (openrouterTestResult st) (error st) (success st).

Definition with_tavilyApiKey (v : jsstring) (st : State) : State :=
  mkState (settings st) (selectedProvider st) (fullContentResults st) v
    (braveApiKey st) (openrouterApiKey st) (councilModels st)
    (chairmanModel st) (availableModels st) (isLoadingModels st)
    (showFreeOnly st) (isSaving st) (isTestingTavily st) (isTestingBrave st)
    (isTestingOpenRouter st) (tavilyTestResult st) (braveTestResult st)
    (openrouterTestResult st) (error st) (success st).

Definition with_braveApiKey (v : jsstring) (st : State) : State :=
  mkState (settings st) (selectedProvider st) (fullContentResults st)
    (tavilyApiKey st) v (openrouterApiKey st) (councilModels st)
    (chairmanModel st) (availableModels st) (isLoadingModels st)
    (showFreeOnly st) (isSaving st) (isTestingTavily st) (isTestingBrave st)
    (isTestingOpenRouter st) (tavilyTestResult st) (braveTestResult st)
    (openrouterTestResult st) (error st) (success st).

Definition with_openrouterApiKey (v : jsstring) (st : State) : State :=
  mkState (settings st) (selectedProvider st) (fullContentResults st)
    (tavilyApiKey st) (braveApiKey st) v (councilModels st)
    (chairmanModel st) (availableModels st) (isLoadingModels st)
    (showFreeOnly st) (isSaving st) (isTestingTavily st) (isTestingBrave st)
    (isTestingOpenRouter st) (tavilyTestResult st) (braveTestResult st)
    (openrouterTestResult st) (error st) (success st).

Definition with_councilModels (v : list slot) (st : State) : State :=
  mkState (settings st) (selectedProvider st) (fullContentResults st)
    (tavilyApiKey st) (braveApiKey st) (openrouterApiKey st) v
    (chairmanModel st) (availableModels st) (isLoadingModels st)
    (showFreeOnly st) (isSaving st) (isTestingTavily st) (isTestingBrave st)
    (isTestingOpenRouter st) (tavilyTestResult st) (braveTestResult st)
    (openrouterTestResult st) (error st) (success st).

Definition with_chairmanModel (v : jsstring) (st : State) : State :=
  mkState (settings st) (selectedProvider st) (fullContentResults st)
    (tavilyApiKey st) (braveApiKey st) (openrouterApiKey st)
    (councilModels st) v (availableModels st) (isLoadingModels st)
    (showFreeOnly st) (isSaving st) (isTestingTavily st) (isTestingBrave st)
    (isTestingOpenRouter st) (tavilyTestResult st) (braveTestResult st)
    (openrouterTestResult st) (error st) (success st).

Definition with_availableModels (v : list Model) (st : State) : State :=
  mkState (settings st) (selectedProvider st) (fullContentResults st)
    (tavilyApiKey st) (braveApiKey st) (openrouterApiKey st)
    (councilModels st) (chairmanModel st) v (isLoadingModels st)
    (showFreeOnly st) (isSaving st) (isTestingTavily st) (isTestingBrave st)
    (isTestingOpenRouter st) (tavilyTestResult st) (braveTestResult st)
    (openrouterTestResult st) (error st) (success st).

Definition with_isLoadingModels (v : bool) (st : State) : State :=
  mkState (settings st) (selectedProvider st) (fullContentResults st)
    (tavilyApiKey st) (braveApiKey st) (openrouterApiKey st)
    (councilModels st) (chairmanModel st) (availableModels st) v
    (showFreeOnly st) (isSaving st) (isTestingTavily st) (isTestingBrave st)
    (isTestingOpenRouter st) (tavilyTestResult st) (braveTestResult st)
    (openrouterTestResult st) (error st) (success st).

Definition with_isSaving (v : bool) (st : State) : State :=
  mkState (settings st) (selectedProvider st) (fullContentResults st)
    (tavilyApiKey st) (braveApiKey st) (openrouterApiKey st)
    (councilModels st) (chairmanModel st) (availableModels st)
    (isLoadingModels st) (showFreeOnly st) v (isTestingTavily st)
    (isTestingBrave st) (isTestingOpenRouter st) (tavilyTestResult st)
    (braveTestResult st) (openrouterTestResult st) (error st) (success st).

Definition with_error (v : option jsstring) (st : State) : State :=
  mkState (settings st) (selectedProvider st) (fullContentResults st)
    (tavilyApiKey st) (braveApiKey st) (openrouterApiKey st)
    (councilModels st) (chairmanModel st) (availableModels st)
    (isLoadingModels st) (showFreeOnly st) (isSaving st)
    (isTestingTavily st) (isTestingBrave st) (isTestingOpenRouter st)
    (tavilyTestResult st) (braveTestResult st) (openrouterTestResult st) v
    (success st).

Definition with_success (v : bool) (st : State) : State :=
  mkState (settings st) (selectedProvider st) (fullContentResults st)
    (tavilyApiKey st) (braveApiKey st) (openrouterApiKey st)
    (councilModels st) (chairmanModel st) (availableModels st)
    (isLoadingModels st) (showFreeOnly st) (isSaving st)
    (isTestingTavily st) (isTestingBrave st) (isTestingOpenRouter st)
    (tavilyTestResult st) (braveTestResult st) (openrouterTestResult st)
    (error st) v.

(** The initial values of the [useState] cells. *)
Definition initial : State :=
  mkState None (js "duckduckgo") 3%Z [] [] [] [] [] [] false false false
    false false false None None None None false.

(** *** The [api] collaborator *)

Inductive ApiCall :=
  | GetSettings
  | GetModels
  | UpdateSettings (updates : gmap string jsval).

(** What the collaborator answers during one run of a handler; [None] and
    [false] are a rejected promise. *)
Record Answers := mkAnswers {
  updateSettings_ok : bool;
  getSettings_answer : option PersistedSettings;
  getModels_answer : option ModelsAnswer
}.

(** *** Handlers as computations

    A computation transforms the pending state and the log of calls, and
    either returns or throws ([None]). *)

Definition M (A : Type) : Type :=
  State * list ApiCall -> option A * (State * list ApiCall).

#[global] Instance M_ret : MRet M := fun A a w => (Some a, w).

#[global] Instance M_bind : MBind M := fun A B k c w =>
  match c w with
  | (Some a, w') => k a w'
  | (None, w') => (None, w')
  end.

(** [try { body } catch { handler }] *)
Definition try_catch {A} (body handler : M A) : M A :=
  fun w => match body w with
           | (None, w') => handler w'
           | r => r
           end.

(** [try { body } finally { fin }] *)
Definition try_finally {A} (body : M A) (fin : M unit) : M A :=
  fun w => match body w with
           | (r, w') =>
               match fin w' with
               | (Some _, w'') => (r, w'')
               | (None, w'') => (None, w'')
               end
           end.

(** A state setter called with an updater function. *)
Definition set (f : State -> State) : M unit :=
  fun w => (Some tt, (f (fst w), snd w)).

(** The setters called with a value. *)
Definition setSettings (v : option PersistedSettings) : M unit := set (with_settings v).
Definition setSelectedProvider (v : jsstring) : M unit := set (with_selectedProvider v).
Definition setFullContentResults (v : Z) : M unit := set (with_fullContentResults v).
Definition setTavilyApiKey (v : jsstring) : M unit := set (with_tavilyApiKey v).
Definition setBraveApiKey (v : jsstring) : M unit := set (with_braveApiKey v).
Definition setOpenrouterApiKey (v : jsstring) : M unit := set (with_openrouterApiKey v).
Definition setCouncilModels (v : list slot) : M unit := set (with_councilModels v).
Definition setChairmanModel (v : jsstring) : M unit := set (with_chairmanModel v).
Definition setAvailableModels (v : list Model) : M unit := set (with_availableModels v).
Definition setIsLoadingModels (v : bool) : M unit := set (with_isLoadingModels v).
Definition setIsSaving (v : bool) : M unit := set (with_isSaving v).
Definition setError (v : option jsstring) : M unit := set (with_error v).
Definition setSuccess (v : bool) : M unit := set (with_success v).

(** [setCouncilModels(prev => f prev)] *)
Definition setCouncilModels_prev (f : list slot -> list slot) : M unit :=
  set (fun st => with_councilModels (f (councilModels st)) st).

(** [await api.f(...)]: the call is logged; the answer comes from the
    collaborator, a rejection is thrown. *)
Definition await {A} (call : ApiCall) (answer : option A) : M A :=
  fun w => (answer, (fst w, snd w ++ [call])).

(** The state and the calls after a handler has run from state [st]. *)
Definition exec {A} (c : M A) (st : State) : State * list ApiCall :=
  snd (c (st, [])).

(** *** Arrays *)

(** [[...prev]]: the copy has [undefined] where [prev] has a hole. *)
Definition spread (prev : list slot) : list slot :=
  (fun e => match e with Empty => Undefined | _ => e end) <$> prev.

(** [a[index] = v] for an index that is a natural number: a write past
    the end extends the array, leaving holes. *)
Definition array_set (a : list slot) (index : nat) (v : slot) : list slot :=
  if (index <? length a)%nat then <[index := v]> a
  else a ++ replicate (index - length a) Empty ++ [v].

(** An array without holes, as every array the server sends. *)
Definition hole_free (a : list slot) : Prop := Forall (fun e => e <> Empty) a.

(** [a.filter((_, i) => keep i)]: holes are not visited. *)
Fixpoint filter_index_from (i : nat) (keep : nat -> bool) (a : list slot) : list slot :=
  match a with
  | [] => []
  | e :: a' =>
      match e with
      | Empty => filter_index_from (S i) keep a'
      | _ => if keep i then e :: filter_index_from (S i) keep a'
             else filter_index_from (S i) keep a'
      end
  end.

Definition filter_index (keep : nat -> bool) (a : list slot) : list slot :=
  filter_index_from 0 keep a.

(** *** Loading, lines 55-84 *)

Definition loadModels (env : Answers) : M unit :=
  setIsLoadingModels true ;;
  try_finally
    (try_catch
       (data ← await GetModels (getModels_answer env);
        match models data with
        | Some (m :: ms) => setAvailableModels (m :: ms)
        | _ => mret tt (* console.warn, or nothing *)
        end)
       (mret tt (* console.warn *)))
    (setIsLoadingModels false).

Definition loadSettings (env : Answers) : M unit :=
  try_catch
    (data ← await GetSettings (getSettings_answer env);
     setSettings (Some data) ;;
     setSelectedProvider (or_else (search_provider data) (js "duckduckgo")) ;;
     setFullContentResults (default 3%Z (full_content_results data)) ;;
     setCouncilModels (Id <$> default [] (council_models data)) ;;
     setChairmanModel (or_else (chairman_model data) []) ;;
     loadModels env)
    (setError (Some (js "Failed to load settings"))).

(** *** The roster handlers, lines 143-169 *)

Definition handleCouncilModelChange (index : nat) (modelId : jsstring) : M unit :=
  setCouncilModels_prev (fun prev =>
    let updated := spread prev in
    array_set updated index (Id modelId)).

(** [filteredModels], lines 164-166 (and 152-154). *)
Definition filteredModels (r : State) : list Model :=
  if showFreeOnly r then List.filter is_free (availableModels r)
  else availableModels r.

Definition handleAddCouncilMember (r : State) : M unit :=
  match filteredModels r with
  | m :: _ => setCouncilModels_prev (fun prev => spread prev ++ [Id (id m)])
  | [] => mret tt
  end.

Definition handleRemoveCouncilMember (index : nat) : M unit :=
  setCouncilModels_prev (fun prev =>
    filter_index (fun i => negb (i =? index)%nat) prev).

(** [chairmanModels], line 169. *)
Definition chairmanModels (r : State) : list Model :=
  List.filter (fun m => negb (is_free m)) (availableModels r).

(** *** Saving, lines 181-222 *)

(** The test written out for each of the three keys, lines 195, 199, 203:
    [key && !key.startsWith('•')]. *)
Definition key_is_sent (key : jsstring) : bool :=
  truthy key && negb (startsWith [bullet] key).

(** The [placeholder] attribute of the input of a key that the server
    holds, lines 279, 320, 387: sixteen bullets. *)
Definition masked_placeholder : jsstring := replicate 16 bullet.

(** The object [updates] handed to [api.updateSettings], lines 187-205. *)
Definition build_updates (r : State) : gmap string jsval :=
  let updates : gmap string jsval :=
    <["chairman_model" := VString (chairmanModel r)]>
      (<["council_models" := VArray (councilModels r)]>
        (<["full_content_results" := VNumber (fullContentResults r)]>
          (<["search_provider" := VString (selectedProvider r)]> ∅))) in
  let updates :=
    if key_is_sent (tavilyApiKey r)
    then <["tavily_api_key" := VString (tavilyApiKey r)]> updates else updates in
  let updates :=
    if key_is_sent (braveApiKey r)
    then <["brave_api_key" := VString (braveApiKey r)]> updates else updates in
  let updates :=
    if key_is_sent (openrouterApiKey r)
    then <["openrouter_api_key" := VString (openrouterApiKey r)]> updates else updates in
  updates.

(** [handleSave] of the render with state [r].  The timer of line 216,
    which lowers [success] three seconds later, is a later event. *)
Definition handleSave (r : State) (env : Answers) : M unit :=
  setIsSaving true ;;
  setError None ;;
  setSuccess false ;;
  try_finally
    (try_catch
       (let updates := build_updates r in
        await (UpdateSettings updates)
          (if updateSettings_ok env then Some tt else None) ;;
        setSuccess true ;;
        setTavilyApiKey [] ;;
        setBraveApiKey [] ;;
        setOpenrouterApiKey [] ;;
        loadSettings env)
       (setError (Some (js "Failed to save settings"))))
    (setIsSaving false).

(** *** The controls that call the handlers

    A button with [disabled] set does not call its [onClick]. *)
Definition button (disabled : bool) (onClick : M unit) : M unit :=
  if disabled then mret tt else onClick.

(** The save button, lines 532-538. *)
Definition save_button (r : State) (env : Answers) : M unit :=
  button (isSaving r || (length (councilModels r) =? 0)%nat) (handleSave r env).

(** The remove button of row [index], lines 474-482. *)
Definition remove_member_button (r : State) (index : nat) : M unit :=
  button (length (councilModels r) <=? 1)%nat (handleRemoveCouncilMember index).

(** The add button, lines 486-493. *)
Definition add_member_button (r : State) : M unit :=
  button (length (filteredModels r) =? 0)%nat (handleAddCouncilMember r).

(** *** The chairman selector, lines 506-522 *)

Record option_element := mkOption { value : jsstring; text : jsstring }.

Definition has_id (modelId : jsstring) (m : Model) : bool :=
  bool_decide (id m = modelId).

Definition not_recommended : jsstring := js " (not recommended)".

(** The options of the models that may be chosen, lines 511-515. *)
Definition eligible_options (r : State) : list option_element :=
  (fun model => mkOption (id model) (name model)) <$> chairmanModels r.

(** The option that keeps the current value visible, lines 518-520. *)
Definition legacy_option (r : State) : option_element :=
  mkOption (chairmanModel r)
    (or_else (name <$> List.find (has_id (chairmanModel r)) (availableModels r))
             (chairmanModel r) ++ not_recommended).

(** The children of the chairman [select], lines 511-521. *)
Definition chairman_options (r : State) : list option_element :=
  eligible_options r ++
  match List.find (has_id (chairmanModel r)) (chairmanModels r) with
  | None => [legacy_option r]
  | Some _ => []
  end.

(** The options whose value is [v]. *)
Definition options_of_value (v : jsstring) (options : list option_element)
  : list option_element :=
  List.filter (fun o => bool_decide (value o = v)) options.

End Settings.

(** ** Handlers over any state and any collaborator

    The computations of [Settings.M], for a state [St] and calls [Call] of
    any type: the other handlers of the components run in them. *)

Module Eff.

Definition T (St Call A : Type) : Type :=
  St * list Call -> option A * (St * list Call).

#[global] Instance T_ret St Call : MRet (T St Call) := fun A a w => (Some a, w).

#[global] Instance T_bind St Call : MBind (T St Call) := fun A B k c w =>
  match c w with
  | (Some a, w') => k a w'
  | (None, w') => (None, w')
  end.

Section Operations.
Context {St Call : Type}.

(** [try { body } catch { handler }] *)
Definition try_catch {A} (body handler : T St Call A) : T St Call A :=
  fun w => match body w with
           | (None, w') => handler w'
           | r => r
           end.

(** [try { body } finally { fin }] *)
Definition try_finally {A} (body : T St Call A) (fin : T St Call unit) : T St Call A :=
  fun w => match body w with
           | (r, w') =>
               match fin w' with
               | (Some _, w'') => (r, w'')
               | (None, w'') => (None, w'')
               end
           end.

(** A state setter called with an updater function. *)
Definition set (f : St -> St) : T St Call unit :=
  fun w => (Some tt, (f (fst w), snd w)).

(** A call whose answer is awaited ([None]: the promise is rejected), and a
    call of a callback, which answers nothing. *)
Definition await {A} (call : Call) (answer : option A) : T St Call A :=
  fun w => (answer, (fst w, snd w ++ [call])).

Definition call (c : Call) : T St Call unit :=
  fun w => (Some tt, (fst w, snd w ++ [c])).

(** The state and the calls after a handler has run from state [st]. *)
Definition exec {A} (c : T St Call A) (st : St) : St * list Call :=
  snd (c (st, [])).

(** A button with [disabled] set does not call its [onClick]. *)
Definition button (disabled : bool) (onClick : T St Call unit) : T St Call unit :=
  if disabled then mret tt else onClick.

End Operations.

End Eff.

(** ** Settings.jsx: key tests, reset to defaults, and what is drawn *)

Module Panel.

Import Settings.

Definition with_showFreeOnly (v : bool) (st : State) : State :=
  mkState (settings st) (selectedProvider st) (fullContentResults st)
    (tavilyApiKey st) (braveApiKey st) (openrouterApiKey st)
    (councilModels st) (chairmanModel st) (availableModels st)
    (isLoadingModels st) v (isSaving st) (isTestingTavily st)
    (isTestingBrave st) (isTestingOpenRouter st) (tavilyTestResult st)
    (braveTestResult st) (openrouterTestResult st) (error st) (success st).

Definition with_isTestingTavily (v : bool) (st : State) : State :=
  mkState (settings st) (selectedProvider st) (fullContentResults st)
    (tavilyApiKey st) (braveApiKey st) (openrouterApiKey st)
    (councilModels st) (chairmanModel st) (availableModels st)
    (isLoadingModels st) (showFreeOnly st) (isSaving st) v
    (isTestingBrave st) (isTestingOpenRouter st) (tavilyTestResult st)
    (braveTestResult st) (openrouterTestResult st) (error st) (success st).

Definition with_isTestingBrave (v : bool) (st : State) : State :=
  mkState (settings st) (selectedProvider st) (fullContentResults st)
    (tavilyApiKey st) (braveApiKey st) (openrouterApiKey st)
    (councilModels st) (chairmanModel st) (availableModels st)
    (isLoadingModels st) (showFreeOnly st) (isSaving st)
    (isTestingTavily st) v (isTestingOpenRouter st) (tavilyTestResult st)
    (braveTestResult st) (openrouterTestResult st) (error st) (success st).

Definition with_isTestingOpenRouter (v : bool) (st : State) : State :=
  mkState (settings st) (selectedProvider st) (fullContentResults st)
    (tavilyApiKey st) (braveApiKey st) (openrouterApiKey st)
    (councilModels st) (chairmanModel st) (availableModels st)
    (isLoadingModels st) (showFreeOnly st) (isSaving st)
    (isTestingTavily st) (isTestingBrave st) v (tavilyTestResult st)
    (braveTestResult st) (openrouterTestResult st) (error st) (success st).

Definition with_tavilyTestResult (v : option TestResult) (st : State) : State :=
  mkState (settings st) (selectedProvider st) (fullContentResults st)
    (tavilyApiKey st) (braveApiKey st) (openrouterApiKey st)
    (councilModels st) (chairmanModel st) (availableModels st)
    (isLoadingModels st) (showFreeOnly st) (isSaving st)
    (isTestingTavily st) (isTestingBrave st) (isTestingOpenRouter st) v
    (braveTestResult st) (openrouterTestResult st) (error st) (success st).

Definition with_braveTestResult (v : option TestResult) (st : State) : State :=
  mkState (settings st) (selectedProvider st) (fullContentResults st)
    (tavilyApiKey st) (braveApiKey st) (openrouterApiKey st)
    (councilModels st) (chairmanModel st) (availableModels st)
    (isLoadingModels st) (showFreeOnly st) (isSaving st)
    (isTestingTavily st) (isTestingBrave st) (isTestingOpenRouter st)
    (tavilyTestResult st) v (openrouterTestResult st) (error st)
    (success st).

Definition with_openrouterTestResult (v : option TestResult) (st : State) : State :=
  mkState (settings st) (selectedProvider st) (fullContentResults st)
    (tavilyApiKey st) (braveApiKey st) (openrouterApiKey st)
    (councilModels st) (chairmanModel st) (availableModels st)
    (isLoadingModels st) (showFreeOnly st) (isSaving st)
    (isTestingTavily st) (isTestingBrave st) (isTestingOpenRouter st)
    (tavilyTestResult st) (braveTestResult st) v (error st) (success st).

(** The calls of these handlers. *)
Inductive PanelCall :=
  | TestTavilyKey (key : jsstring)
  | TestBraveKey (key : jsstring)
  | TestOpenRouterKey (key : jsstring)
  | GetDefaultSettings.

Abbreviation P := (Eff.T State PanelCall).

Definition setIsTestingTavily (v : bool) : P unit := Eff.set (with_isTestingTavily v).
Definition setIsTestingBrave (v : bool) : P unit := Eff.set (with_isTestingBrave v).
Definition setIsTestingOpenRouter (v : bool) : P unit :=
  Eff.set (with_isTestingOpenRouter v).
Definition setTavilyTestResult (v : option TestResult) : P unit :=
  Eff.set (with_tavilyTestResult v).
Definition setBraveTestResult (v : option TestResult) : P unit :=
  Eff.set (with_braveTestResult v).
Definition setOpenrouterTestResult (v : option TestResult) : P unit :=
  Eff.set (with_openrouterTestResult v).
Definition setTavilyApiKey (v : jsstring) : P unit := Eff.set (with_tavilyApiKey v).
Definition setBraveApiKey (v : jsstring) : P unit := Eff.set (with_braveApiKey v).
Definition setOpenrouterApiKey (v : jsstring) : P unit := Eff.set (with_openrouterApiKey v).
Definition setCouncilModels (v : list slot) : P unit := Eff.set (with_councilModels v).
Definition setChairmanModel (v : jsstring) : P unit := Eff.set (with_chairmanModel v).
Definition setError (v : option jsstring) : P unit := Eff.set (with_error v).

Definition enter_key_first : TestResult :=
  mkTestResult false (js "Please enter an API key first").

Definition test_failed : TestResult := mkTestResult false (js "Test failed").

(** [handleTestTavily] of the render with state [r], lines 86-103;
    [answer] is what [api.testTavilyKey] answers. *)
Definition handleTestTavily (r : State) (answer : option TestResult) : P unit :=
  if negb (truthy (tavilyApiKey r)) then
    setTavilyTestResult (Some enter_key_first)
  else
    setIsTestingTavily true ;;
    setTavilyTestResult None ;;
    Eff.try_finally
      (Eff.try_catch
         (result ← Eff.await (TestTavilyKey (tavilyApiKey r)) answer;
          setTavilyTestResult (Some result))
         (setTavilyTestResult (Some test_failed)))
      (setIsTestingTavily false).

(** [handleTestBrave], lines 105-122. *)
Definition handleTestBrave (r : State) (answer : option TestResult) : P unit :=
  if negb (truthy (braveApiKey r)) then
    setBraveTestResult (Some enter_key_first)
  else
    setIsTestingBrave true ;;
    setBraveTestResult None ;;
    Eff.try_finally
      (Eff.try_catch
         (result ← Eff.await (TestBraveKey (braveApiKey r)) answer;
          setBraveTestResult (Some result))
         (setBraveTestResult (Some test_failed)))
      (setIsTestingBrave false).

(** [handleTestOpenRouter], lines 124-141. *)
Definition handleTestOpenRouter (r : State) (answer : option TestResult) : P unit :=
  if negb (truthy (openrouterApiKey r)) then
    setOpenrouterTestResult (Some enter_key_first)
  else
    setIsTestingOpenRouter true ;;
    setOpenrouterTestResult None ;;
    Eff.try_finally
      (Eff.try_catch
         (result ← Eff.await (TestOpenRouterKey (openrouterApiKey r)) answer;
          setOpenrouterTestResult (Some result))
         (setOpenrouterTestResult (Some test_failed)))
      (setIsTestingOpenRouter false).

(** The three Test buttons, lines 286-293, 327-334, 394-401. *)
Definition test_tavily_button (r : State) (answer : option TestResult) : P unit :=
  Eff.button (isTestingTavily r || negb (truthy (tavilyApiKey r)))
    (handleTestTavily r answer).

Definition test_brave_button (r : State) (answer : option TestResult) : P unit :=
  Eff.button (isTestingBrave r || negb (truthy (braveApiKey r)))
    (handleTestBrave r answer).

Definition test_openrouter_button (r : State) (answer : option TestResult) : P unit :=
  Eff.button (isTestingOpenRouter r || negb (truthy (openrouterApiKey r)))
    (handleTestOpenRouter r answer).

(** The [onChange] of the three key inputs, lines 281-284, 322-325,
    389-392. *)
Definition onChange_tavily_key (v : jsstring) : P unit :=
  setTavilyApiKey v ;; setTavilyTestResult None.

Definition onChange_brave_key (v : jsstring) : P unit :=
  setBraveApiKey v ;; setBraveTestResult None.

Definition onChange_openrouter_key (v : jsstring) : P unit :=
  setOpenrouterApiKey v ;; setOpenrouterTestResult None.

(** The answer of [api.getDefaultSettings()]. *)
Record Defaults := mkDefaults {
  defaults_council_models : list jsstring;
  defaults_chairman_model : jsstring
}.

(** [handleResetToDefaults], lines 171-179. *)
Definition handleResetToDefaults (answer : option Defaults) : P unit :=
  Eff.try_catch
    (defaults ← Eff.await GetDefaultSettings answer;
     setCouncilModels (Id <$> defaults_council_models defaults) ;;
     setChairmanModel (defaults_chairman_model defaults))
    (setError (Some (js "Failed to load default settings"))).

(** *** What is drawn *)

(** An entry of [SEARCH_PROVIDERS], lines 5-27 (the name and the
    description, two texts, are left out). *)
Record Provider := mkProvider {
  provider_id : jsstring;
  requiresKey : bool;
  keyType : option jsstring
}.

Definition SEARCH_PROVIDERS : list Provider :=
  [ mkProvider (js "duckduckgo") false None;
    mkProvider (js "tavily") true (Some (js "tavily"));
    mkProvider (js "brave") true (Some (js "brave")) ].

(** [selectedProviderInfo], line 234. *)
Definition selectedProviderInfo (r : State) : option Provider :=
  List.find (fun p => bool_decide (provider_id p = selectedProvider r)) SEARCH_PROVIDERS.

(** [selectedProviderInfo?.keyType === 'tavily'], line 272, and the same
    for brave, line 313: whether the section of that key is drawn. *)
Definition tavily_section (r : State) : bool :=
  bool_decide ((selectedProviderInfo r ≫= keyType) = Some (js "tavily")).

Definition brave_section (r : State) : bool :=
  bool_decide ((selectedProviderInfo r ≫= keyType) = Some (js "brave")).

(** [selectedProvider !== 'tavily'], line 354: whether the control of the
    full article fetch is drawn. *)
Definition full_content_section (r : State) : bool :=
  negb (bool_decide (selectedProvider r = js "tavily")).




(** The children of the [select] of a council member whose current value
    is [modelId], lines 462-472. *)
Definition member_option (model : Model) : option_element :=
  mkOption (id model)
    (name model ++ js " " ++ (if is_free model then js "(Free)" else [])).

Definition kept_member_option (r : State) (modelId : jsstring) : option_element :=
  mkOption modelId
    (or_else (name <$> List.find (has_id modelId) (availableModels r)) modelId).

Definition member_options (r : State) (modelId : jsstring) : list option_element :=
  (member_option <$> filteredModels r) ++
  match List.find (has_id modelId) (filteredModels r) with
  | None => [kept_member_option r modelId]
  | Some _ => []
  end.

(** *** The roster editor as the user meets it

    A row, with its selector and its remove button, is drawn for every
    entry of the roster that is not a hole (line 454: [map] passes over
    holes). *)
Definition row_exists (r : State) (index : nat) : bool :=
  match councilModels r !! index with
  | Some Empty | None => false
  | Some _ => true
  end.

Inductive roster_event :=
  | SelectModel (index : nat) (modelId : jsstring)
  | AddMember
  | RemoveMember (index : nat).

Definition roster_handler (r : State) (e : roster_event) : M unit :=
  match e with
  | SelectModel index modelId =>
      if row_exists r index then handleCouncilModelChange index modelId else mret tt
  | AddMember => add_member_button r
  | RemoveMember index =>
      if row_exists r index then remove_member_button r index else mret tt
  end.

(** One event on the state of the last render. *)
Definition roster_step (r : State) (e : roster_event) : State :=
  fst (exec (roster_handler r e) r).

Definition roster_run (r : State) (es : list roster_event) : State :=
  fold_left roster_step es r.

End Panel.

(** ** Stage1.jsx: the label of a tab *)

Module Stage1.

(** The label of the tab of a response whose [model] is [model], lines
    42-49. *)
Definition displayName (model : option jsstring) : jsstring :=
  let modelId := or_else model (js "Unknown") in
  if includes [slash] modelId then or_else (split slash modelId !! 1%nat) modelId
  else if includes [colon] modelId then or_else (split colon modelId !! 1%nat) modelId
  else modelId.

End Stage1.

(** ** Stage2.jsx: the extracted ranking *)

Module Stage2View.

Import Stage2.



End Stage2View.

(** ** Sidebar.jsx *)

Module Sidebar.

Record Conversation := mkConversation {
  conv_id : jsstring;
  title : option jsstring;
  message_count : Z
}.

(** The props that the handlers read. *)
Record Props := mkProps {
  conversations : list Conversation;
  currentConversationId : option jsstring;
  isLoading : bool
}.

(** The callbacks of the parent. *)
Inductive Callback :=
  | onSelectConversation (convId : jsstring)
  | onNewConversation
  | onDeleteConversation (convId : jsstring)
  | onOpenSettings
  | onAbort.

(** The state is the one cell [deleteConfirmId], line 14. *)
Abbreviation SB := (Eff.T (option jsstring) Callback).

Definition setDeleteConfirmId (v : option jsstring) : SB unit := Eff.set (fun _ => v).

(** [handleDeleteClick], lines 16-19; the answer says that the click goes
    no further up ([e.stopPropagation()]). *)
Definition handleDeleteClick (convId : jsstring) : SB bool :=
  setDeleteConfirmId (Some convId) ;; mret true.

(** [confirmDelete] of the render with state [deleteConfirmId], lines
    21-26. *)
Definition confirmDelete (deleteConfirmId : option jsstring) : SB unit :=
  match deleteConfirmId with
  | Some (c :: i) =>
      Eff.call (onDeleteConversation (c :: i)) ;;
      setDeleteConfirmId None
  | _ => mret tt
  end.

(** [cancelDelete], lines 28-30. *)
Definition cancelDelete : SB unit := setDeleteConfirmId None.

(** The confirmation dialog is drawn when [deleteConfirmId] is truthy,
    line 99. *)
Definition modal_shown (deleteConfirmId : option jsstring) : bool :=
  match deleteConfirmId with
  | Some id => truthy id
  | None => false
  end.

(** The [onClick] of a row, line 54, and of its delete button, line 66
    (the answer: whether the click stops there). *)
Definition row_onClick (p : Props) (conv : Conversation) : SB unit :=
  if isLoading p then mret tt else Eff.call (onSelectConversation (conv_id conv)).

Definition delete_onClick (p : Props) (conv : Conversation) : SB bool :=
  if isLoading p then mret false else handleDeleteClick (conv_id conv).

(** A click on the delete button of [conv]: a disabled button has no
    handler run, and the click is not stopped. *)
Definition delete_button (p : Props) (conv : Conversation) : SB bool :=
  if isLoading p then mret false else delete_onClick p conv.

(** What the user can click; a row and its delete button are those of the
    conversation of index [index] in the list (line 49). *)
Inductive click :=
  | NewConversationButton
  | Row (index : nat)
  | DeleteButton (index : nat)
  | SettingsButton
  | StopButton
  | ModalOverlay
  | ModalBox
  | CancelButton
  | ConfirmButton.

(** A click on what is drawn with props [p] and state [deleteConfirmId].
    A click on a delete button goes up to its row unless the handler
    stopped it; a disabled button has no handler run.  The buttons of the
    dialog sit in the box, which stops every click (line 101). *)
Definition on_click (p : Props) (deleteConfirmId : option jsstring) (c : click)
  : SB unit :=
  match c with
  | NewConversationButton => Eff.button (isLoading p) (Eff.call onNewConversation)
  | Row index =>
      match conversations p !! index with
      | Some conv => row_onClick p conv
      | None => mret tt
      end
  | DeleteButton index =>
      match conversations p !! index with
      | Some conv =>
          stopped ← delete_button p conv;
          if stopped : bool then mret tt else row_onClick p conv
      | None => mret tt
      end
  | SettingsButton => Eff.button (isLoading p) (Eff.call onOpenSettings)
  | StopButton => if isLoading p then Eff.call onAbort else mret tt
  | ModalOverlay => if modal_shown deleteConfirmId then cancelDelete else mret tt
  | ModalBox => mret tt
  | CancelButton => if modal_shown deleteConfirmId then cancelDelete else mret tt
  | ConfirmButton =>
      if modal_shown deleteConfirmId then confirmDelete deleteConfirmId else mret tt
  end.

(** The state and the callbacks so far, after one more click. *)
Definition sidebar_step (w : option jsstring * list Callback) (e : Props * click)
  : option jsstring * list Callback :=
  let '(st', calls) := Eff.exec (on_click (fst e) (fst w) (snd e)) (fst w) in
  (st', snd w ++ calls).

(** From [useState(null)]. *)
Definition sidebar_run (es : list (Props * click)) : option jsstring * list Callback :=
  fold_left sidebar_step es (None, []).

(** The delete button of a conversation of id [convId] was clicked, while
    no query was running, somewhere in [es]. *)
Definition delete_clicked (es : list (Props * click)) (convId : jsstring) : Prop :=
  exists p index conv,
    In (p, DeleteButton index) es /\ conversations p !! index = Some conv /\
    isLoading p = false /\ conv_id conv = convId.

End Sidebar.


(** * Properties *)

Import Stage2.

(** ** Strings *)

Section StringFacts.

Lemma startsWith_app (p s : jsstring) : startsWith p (p ++ s) = true.
Proof.
  induction p as [|a p IH]; simpl; [done|].
  by rewrite N.eqb_refl, IH.
Qed.

Lemma startsWith_app_l (p u v : jsstring) :
  (length p <= length u)%nat -> startsWith p (u ++ v) = startsWith p u.
Proof.
  revert u; induction p as [|a p IH]; intros [|b u] Hlen; simpl in *;
    try done; try lia.
  rewrite IH; [done|lia].
Qed.

Lemma includes_cons_false (p : jsstring) (c : N) (s : jsstring) :
  includes p (c :: s) = false ->
  startsWith p (c :: s) = false /\ includes p s = false.
Proof. intros H. apply orb_false_iff. exact H. Qed.

Lemma includes_single_cons (c d : N) (s : jsstring) :
  includes [c] (d :: s) = (c =? d) || includes [c] s.
Proof. simpl. by rewrite andb_true_r. Qed.

Lemma split_without (sep : N) (a : jsstring) :
  includes [sep] a = false -> split sep a = [a].
Proof.
  induction a as [|c a IH]; [done|].
  rewrite includes_single_cons. intros H.
  apply orb_false_iff in H as [Hc Ha]. simpl.
  rewrite N.eqb_sym, Hc. by rewrite (IH Ha).
Qed.

Lemma split_at_first (sep : N) (a t : jsstring) :
  includes [sep] a = false -> split sep (a ++ sep :: t) = a :: split sep t.
Proof.
  induction a as [|c a IH]; simpl app.
  - intros _. simpl. by rewrite N.eqb_refl.
  - rewrite includes_single_cons. intros H.
    apply orb_false_iff in H as [Hc Ha]. simpl.
    rewrite N.eqb_sym, Hc. by rewrite (IH Ha).
Qed.

Lemma includes_single_app (c : N) (a b : jsstring) :
  includes [c] (a ++ b) = includes [c] a || includes [c] b.
Proof.
  induction a as [|d a IH]; [by destruct b|].
  simpl app. rewrite !includes_single_cons, IH. by rewrite orb_assoc.
Qed.

(** The segment of index 1 of a split: the text between the first
    separator and the next one, or the end. *)
Lemma split_second (sep : N) (a b rest : jsstring) :
  includes [sep] a = false -> includes [sep] b = false ->
  rest = [] \/ (exists r, rest = sep :: r) ->
  split sep (a ++ sep :: b ++ rest) !! 1%nat = Some b.
Proof.
  intros Ha Hb Hrest. rewrite (split_at_first _ _ _ Ha). simpl.
  destruct Hrest as [->|[r ->]].
  - by rewrite app_nil_r, (split_without _ _ Hb).
  - by rewrite (split_at_first _ _ _ Hb).
Qed.

End StringFacts.

(** ** Short names (Stage2.jsx) *)

Section ShortNames.

Lemma getShortModelName_unfold (modelId : jsstring) :
  modelId <> [] ->
  getShortModelName (Some modelId) =
    if includes [slash] modelId then or_else (split slash modelId !! 1%nat) modelId
    else if includes [colon] modelId then or_else (split colon modelId !! 1%nat) modelId
    else modelId.
Proof. by destruct modelId. Qed.

Lemma or_else_Some (b d : jsstring) :
  or_else (Some b) d = match b with [] => d | _ => b end.
Proof. by destruct b. Qed.

Lemma includes_sep_mid (sep : N) (a t : jsstring) :
  includes [sep] (a ++ sep :: t) = true.
Proof.
  rewrite includes_single_app, includes_single_cons, N.eqb_refl.
  simpl. apply orb_true_r.
Qed.

Lemma getShortModelName_sep (sep : N) (a b rest : jsstring) :
  includes [sep] a = false -> includes [sep] b = false ->
  rest = [] \/ (exists r, rest = sep :: r) ->
  or_else (split sep (a ++ sep :: b ++ rest) !! 1%nat) (a ++ sep :: b ++ rest)
  = match b with [] => a ++ sep :: b ++ rest | _ => b end.
Proof.
  intros Ha Hb Hrest. by rewrite (split_second _ _ _ _ Ha Hb Hrest), or_else_Some.
Qed.

(** C2, the claim as the specification words it, fails: of an id with two
    slashes the code keeps the text between them, not all the text after
    the first one; and of an id that ends in its only slash it keeps the
    whole id. *)
Lemma getShortModelName_not_after_first :
  getShortModelName (Some (js "a/b/c")) = js "b" /\
  SpecWords.short_name (Some (js "a/b/c")) = js "b/c" /\
  getShortModelName (Some (js "a/b/c")) <> SpecWords.short_name (Some (js "a/b/c")) /\
  getShortModelName (Some (js "a/")) = js "a/" /\
  SpecWords.short_name (Some (js "a/")) = [].
Proof. repeat split; try reflexivity. by vm_compute. Qed.

(** C2 (amended): a missing or empty id yields "Unknown"; an id with a '/'
    yields the text between its first '/' and the next '/' (or the end), and
    the whole id when that text is empty; an id without '/' but with a ':'
    likewise for ':'; any other id is unchanged.  So "a/b", "a:b" and "a"
    yield "b", "b" and "a". *)
Theorem getShortModelName_segment :
  getShortModelName None = js "Unknown" /\
  getShortModelName (Some []) = js "Unknown" /\
  (forall a b rest : jsstring,
     includes [slash] a = false -> includes [slash] b = false ->
     rest = [] \/ (exists r, rest = slash :: r) ->
     getShortModelName (Some (a ++ slash :: b ++ rest))
     = match b with [] => a ++ slash :: b ++ rest | _ => b end) /\
  (forall a b rest : jsstring,
     includes [slash] (a ++ colon :: b ++ rest) = false ->
     includes [colon] a = false -> includes [colon] b = false ->
     rest = [] \/ (exists r, rest = colon :: r) ->
     getShortModelName (Some (a ++ colon :: b ++ rest))
     = match b with [] => a ++ colon :: b ++ rest | _ => b end) /\
  (forall modelId : jsstring,
     modelId <> [] ->
     includes [slash] modelId = false -> includes [colon] modelId = false ->
     getShortModelName (Some modelId) = modelId) /\
  getShortModelName (Some (js "a/b")) = js "b" /\
  getShortModelName (Some (js "a:b")) = js "b" /\
  getShortModelName (Some (js "a")) = js "a".
Proof.
  split; [done|]. split; [done|]. split; [|split; [|split]].
  - intros a b rest Ha Hb Hrest.
    rewrite getShortModelName_unfold by (by destruct a).
    rewrite includes_sep_mid. by apply getShortModelName_sep.
  - intros a b rest Hs Ha Hb Hrest.
    rewrite getShortModelName_unfold by (by destruct a).
    rewrite Hs, includes_sep_mid. by apply getShortModelName_sep.
  - intros modelId Hne Hs Hc.
    rewrite getShortModelName_unfold by done. by rewrite Hs, Hc.
  - done.
Qed.

Lemma getShortModelName_segment_witness :
  getShortModelName (Some (js "openrouter" ++ slash :: js "gpt-5" ++ [])) = js "gpt-5" /\
  getShortModelName (Some (js "ollama" ++ colon :: js "llama3" ++ [])) = js "llama3" /\
  getShortModelName (Some (js "gpt-5")) = js "gpt-5".
Proof.
  destruct getShortModelName_segment as (_ & _ & Hslash & Hcolon & Hplain & _).
  split; [|split].
  - apply (Hslash (js "openrouter") (js "gpt-5") []); [reflexivity|reflexivity|by left].
  - apply (Hcolon (js "ollama") (js "llama3") []);
      [reflexivity|reflexivity|reflexivity|by left].
  - apply (Hplain (js "gpt-5")); [done|reflexivity|reflexivity].
Defined.

End ShortNames.

(** ** Global replacement by a literal pattern *)

Section Replace.

Variables pat template : jsstring.
Hypothesis template_plain : includes [dollar] template = false.

Lemma GetSubstitution_plain (matched before after t : jsstring) :
  includes [dollar] t = false -> GetSubstitution matched before after t = t.
Proof.
  induction t as [|c t IH]; [done|].
  rewrite includes_single_cons. intros H.
  apply orb_false_iff in H as [Hc Ht]. simpl.
  rewrite N.eqb_sym, Hc. by rewrite (IH Ht).
Qed.

(** Without [$] in the template the text already scanned plays no part. *)
Lemma replace_scan_seen (seen seen' : jsstring) (skip : nat) (s : jsstring) :
  replace_scan pat template seen skip s = replace_scan pat template seen' skip s.
Proof.
  revert seen seen' skip.
  induction s as [|c s IH]; intros seen seen' skip; [done|].
  simpl. destruct skip as [|k]; [|apply IH].
  rewrite !(GetSubstitution_plain _ _ _ _ template_plain).
  destruct (startsWith pat (c :: s)).
  - f_equal. apply IH.
  - f_equal. apply IH.
Qed.

(** The rest of a match is passed over. *)
Lemma replace_scan_skip (seen l rest : jsstring) :
  replace_scan pat template seen (length l) (l ++ rest)
  = replace_scan pat template [] 0 rest.
Proof.
  revert seen. induction l as [|c l IH]; intros seen; simpl.
  - apply replace_scan_seen.
  - apply IH.
Qed.

(** A text without an occurrence of the pattern is left verbatim. *)
Lemma replace_scan_none (seen s : jsstring) :
  includes pat s = false -> replace_scan pat template seen 0 s = s.
Proof.
  revert seen. induction s as [|c s IH]; intros seen H; [done|].
  apply includes_cons_false in H as [Hhere Hrest].
  simpl replace_scan. rewrite Hhere. f_equal. by apply IH.
Qed.

(** The first occurrence is replaced, and the scan goes on after it. *)
Lemma replace_scan_first (seen p rest : jsstring) :
  pat <> [] ->
  includes pat (p ++ removelast pat) = false ->
  replace_scan pat template seen 0 (p ++ pat ++ rest)
  = p ++ template ++ replace_scan pat template [] 0 rest.
Proof.
  intros Hne. revert seen. induction p as [|c p IH]; intros seen Hp.
  - pose proof (startsWith_app pat rest) as Hst.
    pose proof (fun seen l => replace_scan_skip seen l rest) as Hskip.
    destruct pat as [|c0 pat'] eqn:Epat; [done|].
    simpl app. simpl app in Hst. unfold replace_scan; fold replace_scan.
    rewrite Hst, (GetSubstitution_plain _ _ _ _ template_plain).
    f_equal. replace (length (c0 :: pat') - 1)%nat with (length pat') by (simpl; lia).
    apply Hskip.
  - apply includes_cons_false in Hp as [Hhere Hrest].
    simpl app. unfold replace_scan; fold replace_scan.
    assert (startsWith pat (c :: p ++ pat ++ rest) = false) as ->.
    { assert (c :: p ++ pat ++ rest
              = ((c :: p) ++ removelast pat) ++ [List.last pat 0] ++ rest) as ->.
      { rewrite (app_removelast_last 0 Hne) at 1.
        by rewrite <- !app_assoc. }
      rewrite startsWith_app_l; [exact Hhere|].
      pose proof (f_equal length (app_removelast_last 0 Hne)) as Hlen.
      rewrite length_app in Hlen. rewrite length_app. simpl in *. lia. }
    f_equal. by apply IH.
Qed.

(** Every occurrence met by the scan is replaced and the text between
    the occurrences is kept. *)
Lemma replace_scan_join (pieces : list jsstring) (last : jsstring) :
  pat <> [] ->
  forallb (fun p => negb (includes pat (p ++ removelast pat))) pieces = true ->
  includes pat last = false ->
  replace_scan pat template [] 0 (join_with pat pieces last)
  = join_with template pieces last.
Proof.
  intros Hne Hps Hlast. induction pieces as [|p pieces IH]; simpl.
  - by apply replace_scan_none.
  - simpl in Hps. apply andb_true_iff in Hps as [Hp Hps].
    apply negb_true_iff in Hp.
    rewrite (replace_scan_first _ _ _ Hne Hp). by rewrite (IH Hps).
Qed.

End Replace.

(** ** De-anonymisation (Stage2.jsx) *)

Section Deanonymize.

Lemma bold_plain (name : jsstring) :
  includes [dollar] name = false -> includes [dollar] (bold name) = false.
Proof.
  intros H. unfold bold. rewrite !includes_single_app, H. reflexivity.
Qed.

Lemma replace_g_nonempty (pat template s : jsstring) :
  pat <> [] -> replace_g pat template s = replace_scan pat template [] 0 s.
Proof. by destruct pat. Qed.

(** An absent mapping and an empty one leave the text as it is. *)
Lemma deAnonymizeText_no_mapping (text : jsstring) :
  deAnonymizeText text None = Some text /\ deAnonymizeText text (Some []) = Some text.
Proof. done. Qed.

(** C1, the claim as the specification words it, fails: the label
    "Response A" is replaced inside the longer token "Response AB", so the
    longer label is never found; whole-token matching would have produced
    the name of the second model. *)
Lemma deAnonymizeText_not_whole_token :
  deAnonymizeText (js "Response AB wins")
    (Some [(js "Response A", Some (js "x/m1")); (js "Response AB", Some (js "x/m2"))])
  = Some (js "**m1**B wins") /\
  SpecWords.deanonymize (js "Response AB wins")
    [(js "Response A", Some (js "x/m1")); (js "Response AB", Some (js "x/m2"))]
  = js "**m2** wins" /\
  deAnonymizeText (js "Response AB") (Some [(js "Response A", Some (js "x/m1"))])
  = Some (js "**m1**B") /\
  SpecWords.deanonymize (js "Response AB") [(js "Response A", Some (js "x/m1"))]
  = js "Response AB".
Proof. repeat split; vm_compute; reflexivity. Qed.

(** C1 (amended): the entries of the mapping are applied in order; an entry
    whose label is a non-empty literal pattern replaces every occurrence of
    the label that a scan from the left meets, whatever stands next to it
    (no word boundary is required), by the bolded short name of its model,
    and keeps the text between the occurrences and the text without
    occurrence (unmapped labels included) verbatim; the next entries work
    on the text so obtained.  The short name is taken literally when it has
    no [$].

    The text is given as it is scanned: [pieces] are the stretches before
    each replaced occurrence and [last] is the stretch after the last one;
    that the scan meets the label nowhere earlier says that the label does
    not occur in a piece followed by the label short of its last code
    unit, nor in [last]. *)
Theorem deAnonymizeText_replaces_substrings
  (label : jsstring) (model : option jsstring)
  (rest : list (jsstring * option jsstring))
  (pieces : list jsstring) (last : jsstring) :
  label <> [] ->
  is_literal label = true ->
  includes [dollar] (getShortModelName model) = false ->
  forallb (fun p => negb (includes label (p ++ removelast label))) pieces = true ->
  includes label last = false ->
  deAnonymizeText (join_with label pieces last) (Some ((label, model) :: rest))
  = deAnonymizeText (join_with (bold (getShortModelName model)) pieces last) (Some rest).
Proof.
  intros Hne Hlit Hplain Hpieces Hlast.
  unfold deAnonymizeText. simpl deAnonymizeEntries.
  unfold deAnonymizeStep, RegExp_literal. rewrite Hlit. simpl mbind.
  rewrite (replace_g_nonempty _ _ _ Hne).
  by rewrite (replace_scan_join _ _ (bold_plain _ Hplain) _ _ Hne Hpieces Hlast).
Qed.

Lemma deAnonymizeText_replaces_substrings_witness :
  deAnonymizeText (js "Response A, then Response AB; Response C last")
    (Some [(js "Response A", Some (js "openrouter/gpt-5"))])
  = Some (js "**gpt-5**, then **gpt-5**B; Response C last").
Proof.
  apply (deAnonymizeText_replaces_substrings
           (js "Response A") (Some (js "openrouter/gpt-5")) []
           [[]; js ", then "] (js "B; Response C last"));
    [done|reflexivity|reflexivity|reflexivity|reflexivity].
Defined.

End Deanonymize.

(** ** Saving the settings (Settings.jsx) *)

Import Settings.

Section Save.

Lemma key_is_sent_iff (key : jsstring) :
  key_is_sent key = true <-> key <> [] /\ startsWith [bullet] key = false.
Proof.
  destruct key as [|c k]; unfold key_is_sent, truthy.
  - split; [done|]. by intros [? _].
  - rewrite andb_true_l, negb_true_iff. split; [done|by intros [_ ?]].
Qed.

Lemma build_updates_draft (r : State) :
  build_updates r !! "search_provider" = Some (VString (selectedProvider r)) /\
  build_updates r !! "full_content_results" = Some (VNumber (fullContentResults r)) /\
  build_updates r !! "council_models" = Some (VArray (councilModels r)) /\
  build_updates r !! "chairman_model" = Some (VString (chairmanModel r)).
Proof.
  unfold build_updates.
  destruct (key_is_sent (tavilyApiKey r)), (key_is_sent (braveApiKey r)),
    (key_is_sent (openrouterApiKey r)); by simplify_map_eq.
Qed.

Lemma build_updates_secrets (r : State) :
  build_updates r !! "tavily_api_key"
    = (if key_is_sent (tavilyApiKey r) then Some (VString (tavilyApiKey r)) else None) /\
  build_updates r !! "brave_api_key"
    = (if key_is_sent (braveApiKey r) then Some (VString (braveApiKey r)) else None) /\
  build_updates r !! "openrouter_api_key"
    = (if key_is_sent (openrouterApiKey r) then Some (VString (openrouterApiKey r)) else None).
Proof.
  unfold build_updates.
  destruct (key_is_sent (tavilyApiKey r)), (key_is_sent (braveApiKey r)),
    (key_is_sent (openrouterApiKey r)); by simplify_map_eq.
Qed.

(** The calls of one run of [handleSave]: the update first, with the
    payload built from the draft of the render; the reload when the update
    succeeded. *)
Lemma handleSave_calls (r : State) (env : Answers) (st : State) :
  snd (exec (handleSave r env) st) =
    UpdateSettings (build_updates r) ::
    (if updateSettings_ok env then
       GetSettings ::
       match getSettings_answer env with Some _ => [GetModels] | None => [] end
     else []).
Proof.
  unfold exec, handleSave, loadSettings, loadModels.
  destruct (updateSettings_ok env), (getSettings_answer env) as [data|],
    (getModels_answer env) as [[[[|m ms]|] err]|]; reflexivity.
Qed.

Lemma secret_field_cases (updates : gmap string jsval) (field : string) (key : jsstring) :
  updates !! field = (if key_is_sent key then Some (VString key) else None) ->
  (is_Some (updates !! field) <-> key <> [] /\ startsWith [bullet] key = false) /\
  (forall v, updates !! field = Some v -> v = VString key).
Proof.
  intros ->. rewrite <- key_is_sent_iff.
  destruct (key_is_sent key); (split; [split|]).
  - done.
  - by eexists.
  - intros v Hv. by injection Hv.
  - by intros [? ?].
  - done.
  - done.
Qed.

(** C3, the claim as the specification words it, fails: a buffer that
    begins with the masking character is not sent, although it is neither
    empty nor equal to the masked placeholder. *)
Lemma handleSave_omits_bullet_prefixed_key :
  tavilyApiKey (with_tavilyApiKey (bullet :: js "abc") initial) <> [] /\
  tavilyApiKey (with_tavilyApiKey (bullet :: js "abc") initial) <> masked_placeholder /\
  tavilyApiKey (with_tavilyApiKey (bullet :: js "abc") initial) <> [bullet] /\
  build_updates (with_tavilyApiKey (bullet :: js "abc") initial) !! "tavily_api_key" = None /\
  snd (exec (handleSave (with_tavilyApiKey (bullet :: js "abc") initial)
              (mkAnswers true None None))
         (with_tavilyApiKey (bullet :: js "abc") initial))
  = [UpdateSettings (build_updates (with_tavilyApiKey (bullet :: js "abc") initial));
     GetSettings].
Proof.
  split; [done|]. split; [done|]. split; [done|].
  split; [|by rewrite handleSave_calls].
  by destruct (build_updates_secrets (with_tavilyApiKey (bullet :: js "abc") initial))
    as (-> & _ & _).
Qed.

(** C3 (amended): in the payload of every save, each of the three secret
    fields is present if and only if its input buffer is non-empty and does
    not begin with the masking character U+2022, and then it carries the
    buffer; so an empty buffer and the masked placeholder are omitted, and a
    save with the three buffers empty sends no secret field. *)
Theorem handleSave_secret_fields (r : State) (env : Answers) :
  exists updates later,
    snd (exec (handleSave r env) r) = UpdateSettings updates :: later /\
    ((is_Some (updates !! "tavily_api_key")
        <-> tavilyApiKey r <> [] /\ startsWith [bullet] (tavilyApiKey r) = false) /\
     (forall v, updates !! "tavily_api_key" = Some v -> v = VString (tavilyApiKey r))) /\
    ((is_Some (updates !! "brave_api_key")
        <-> braveApiKey r <> [] /\ startsWith [bullet] (braveApiKey r) = false) /\
     (forall v, updates !! "brave_api_key" = Some v -> v = VString (braveApiKey r))) /\
    ((is_Some (updates !! "openrouter_api_key")
        <-> openrouterApiKey r <> [] /\ startsWith [bullet] (openrouterApiKey r) = false) /\
     (forall v, updates !! "openrouter_api_key" = Some v
                -> v = VString (openrouterApiKey r))) /\
    startsWith [bullet] masked_placeholder = true /\
    (tavilyApiKey r = [] -> braveApiKey r = [] -> openrouterApiKey r = [] ->
     updates !! "tavily_api_key" = None /\ updates !! "brave_api_key" = None /\
     updates !! "openrouter_api_key" = None).
Proof.
  exists (build_updates r). eexists. split; [apply handleSave_calls|].
  destruct (build_updates_secrets r) as (Ht & Hb & Ho).
  split; [by apply secret_field_cases|].
  split; [by apply secret_field_cases|].
  split; [by apply secret_field_cases|].
  split; [done|].
  intros Et Eb Eo. rewrite Ht, Hb, Ho, Et, Eb, Eo. done.
Qed.

Lemma handleSave_secret_fields_witness :
  exists updates later,
    snd (exec (handleSave (with_selectedProvider (js "brave") initial)
                 (mkAnswers true None None))
           (with_selectedProvider (js "brave") initial))
    = UpdateSettings updates :: later /\
    updates !! "tavily_api_key" = None /\ updates !! "brave_api_key" = None /\
    updates !! "openrouter_api_key" = None.
Proof.
  destruct (handleSave_secret_fields (with_selectedProvider (js "brave") initial)
              (mkAnswers true None None))
    as (updates & later & Hcalls & _ & _ & _ & _ & Hnone).
  exists updates, later. split; [exact Hcalls|].
  apply Hnone; reflexivity.
Defined.

(** C10: every run of [handleSave] sends, whatever the user edited, the
    four fields [search_provider], [full_content_results], [council_models]
    and [chairman_model] with the values of the draft. *)
Theorem handleSave_sends_draft_fields (r : State) (env : Answers) :
  exists updates later,
    snd (exec (handleSave r env) r) = UpdateSettings updates :: later /\
    updates !! "search_provider" = Some (VString (selectedProvider r)) /\
    updates !! "full_content_results" = Some (VNumber (fullContentResults r)) /\
    updates !! "council_models" = Some (VArray (councilModels r)) /\
    updates !! "chairman_model" = Some (VString (chairmanModel r)).
Proof.
  exists (build_updates r). eexists. split; [apply handleSave_calls|].
  apply build_updates_draft.
Qed.

(** C4: with an empty roster the save button is disabled: pressing it
    changes nothing and issues no call, so no update reaches the
    collaborator. *)
Theorem save_button_refused_on_empty_roster (r : State) (env : Answers) :
  councilModels r = [] -> exec (save_button r env) r = (r, []).
Proof.
  intros H. unfold save_button, button. rewrite H. simpl length.
  by rewrite orb_true_r.
Qed.

Lemma save_button_refused_on_empty_roster_witness :
  councilModels initial = [] /\
  exec (save_button initial (mkAnswers true None None)) initial = (initial, []).
Proof.
  split; [reflexivity|].
  apply (save_button_refused_on_empty_roster initial (mkAnswers true None None)).
  reflexivity.
Defined.

(** The handler alone has no such guard: called with an empty roster it
    sends the update. *)
Lemma handleSave_unguarded (r : State) (env : Answers) :
  exists updates later,
    snd (exec (handleSave (with_councilModels [] r) env) (with_councilModels [] r))
    = UpdateSettings updates :: later /\
    updates !! "council_models" = Some (VArray []).
Proof.
  exists (build_updates (with_councilModels [] r)). eexists.
  split; [apply handleSave_calls|].
  by destruct (build_updates_draft (with_councilModels [] r)) as (_ & _ & -> & _).
Qed.

(** C8: when the update succeeds the three key buffers are emptied and the
    settings are asked again from the server (and stored when they arrive);
    when it fails nothing of the draft changes: the state is the one of
    before with the error message set, and no other call is made. *)
Theorem handleSave_outcomes (r : State) (env : Answers) :
  (updateSettings_ok env = true ->
   tavilyApiKey (fst (exec (handleSave r env) r)) = [] /\
   braveApiKey (fst (exec (handleSave r env) r)) = [] /\
   openrouterApiKey (fst (exec (handleSave r env) r)) = [] /\
   isSaving (fst (exec (handleSave r env) r)) = false /\
   (exists later,
      snd (exec (handleSave r env) r)
      = UpdateSettings (build_updates r) :: GetSettings :: later) /\
   (forall data, getSettings_answer env = Some data ->
      settings (fst (exec (handleSave r env) r)) = Some data)) /\
  (updateSettings_ok env = false ->
   fst (exec (handleSave r env) r)
   = with_isSaving false
       (with_error (Some (js "Failed to save settings")) (with_success false r)) /\
   (tavilyApiKey (fst (exec (handleSave r env) r)) = tavilyApiKey r /\
    braveApiKey (fst (exec (handleSave r env) r)) = braveApiKey r /\
    openrouterApiKey (fst (exec (handleSave r env) r)) = openrouterApiKey r /\
    councilModels (fst (exec (handleSave r env) r)) = councilModels r /\
    chairmanModel (fst (exec (handleSave r env) r)) = chairmanModel r /\
    selectedProvider (fst (exec (handleSave r env) r)) = selectedProvider r /\
    fullContentResults (fst (exec (handleSave r env) r)) = fullContentResults r) /\
   error (fst (exec (handleSave r env) r)) = Some (js "Failed to save settings") /\
   snd (exec (handleSave r env) r) = [UpdateSettings (build_updates r)]).
Proof.
  split; intros Hok.
  - split; [|split; [|split; [|split; [|split]]]].
    5: { rewrite handleSave_calls, Hok. by eexists. }
    all: unfold exec, handleSave, loadSettings, loadModels; rewrite Hok;
      destruct (getSettings_answer env) as [data|],
        (getModels_answer env) as [[[[|m ms]|] err]|]; try reflexivity.
    all: by intros ? [= <-].
  - assert (fst (exec (handleSave r env) r)
            = with_isSaving false
                (with_error (Some (js "Failed to save settings"))
                   (with_success false r))) as ->.
    { unfold exec, handleSave. rewrite Hok. by destruct r. }
    split; [done|]. split; [done|]. split; [done|].
    by rewrite handleSave_calls, Hok.
Qed.

Lemma handleSave_outcomes_witness :
  (tavilyApiKey (fst (exec (handleSave (with_tavilyApiKey (js "tvly-1") initial)
                             (mkAnswers true None None))
                       (with_tavilyApiKey (js "tvly-1") initial))) = []) /\
  (tavilyApiKey (fst (exec (handleSave (with_tavilyApiKey (js "tvly-1") initial)
                             (mkAnswers false None None))
                       (with_tavilyApiKey (js "tvly-1") initial))) = js "tvly-1").
Proof.
  split.
  - destruct (handleSave_outcomes (with_tavilyApiKey (js "tvly-1") initial)
                (mkAnswers true None None)) as [Hok _].
    destruct (Hok eq_refl) as (H & _). exact H.
  - destruct (handleSave_outcomes (with_tavilyApiKey (js "tvly-1") initial)
                (mkAnswers false None None)) as [_ Hfail].
    destruct (Hfail eq_refl) as (_ & (H & _) & _). exact H.
Defined.

End Save.

(** ** The council roster (Settings.jsx) *)

Section Roster.

Local Open Scope nat_scope.

Lemma spread_hole_free (roster : list slot) : hole_free roster -> spread roster = roster.
Proof.
  unfold spread. induction 1 as [|e l He _ IH]; [done|].
  rewrite fmap_cons, IH. by destruct e.
Qed.

Lemma spread_length (roster : list slot) : length (spread roster) = length roster.
Proof. unfold spread. apply length_fmap. Qed.

Lemma handleCouncilModelChange_exec (index : nat) (modelId : jsstring) (st : State) :
  exec (handleCouncilModelChange index modelId) st
  = (with_councilModels (array_set (spread (councilModels st)) index (Id modelId)) st, []).
Proof. reflexivity. Qed.

(** C6, the claim as the specification words it, fails: a write past the
    end is not a no-op, the roster grows up to the index. *)
Lemma handleCouncilModelChange_grows_past_end :
  councilModels (with_councilModels [Id (js "a/b")] initial) = [Id (js "a/b")] /\
  councilModels
    (fst (exec (handleCouncilModelChange 3 (js "x/y"))
            (with_councilModels [Id (js "a/b")] initial)))
  = [Id (js "a/b"); Empty; Empty; Id (js "x/y")].
Proof. split; reflexivity. Qed.

(** C6 (amended): for an index within the roster the handler replaces the
    entry at that index and no other, whether or not the id is already a
    member (an entry that was a hole reads [undefined] in the copy); for an
    index at or past the end the roster is not left as it is: it grows to
    [index + 1] entries, the new id last, holes in between. *)
Theorem handleCouncilModelChange_sets_index
  (index : nat) (modelId : jsstring) (st : State) :
  (index < length (councilModels st) ->
   councilModels (fst (exec (handleCouncilModelChange index modelId) st))
   = <[index := Id modelId]> (spread (councilModels st))) /\
  (index < length (councilModels st) -> hole_free (councilModels st) ->
   councilModels (fst (exec (handleCouncilModelChange index modelId) st))
   = <[index := Id modelId]> (councilModels st)) /\
  (length (councilModels st) <= index ->
   councilModels (fst (exec (handleCouncilModelChange index modelId) st))
   = spread (councilModels st)
     ++ replicate (index - length (councilModels st)) Empty ++ [Id modelId]) /\
  (length (councilModels st) <= index ->
   length (councilModels (fst (exec (handleCouncilModelChange index modelId) st)))
   = S index).
Proof.
  rewrite handleCouncilModelChange_exec. simpl fst.
  destruct st; simpl councilModels. unfold array_set. rewrite spread_length.
  split; [|split; [|split]].
  - intros H. apply Nat.ltb_lt in H. by rewrite H.
  - intros H Hfree. apply Nat.ltb_lt in H. by rewrite H, spread_hole_free.
  - intros H. apply Nat.ltb_ge in H. by rewrite H.
  - intros H. pose proof H as H'. apply Nat.ltb_ge in H'. rewrite H'.
    rewrite !length_app, length_replicate, spread_length. simpl. lia.
Qed.

Lemma handleCouncilModelChange_sets_index_witness :
  councilModels
    (fst (exec (handleCouncilModelChange 1 (js "a/b"))
            (with_councilModels [Id (js "a/b"); Id (js "c/d")] initial)))
  = [Id (js "a/b"); Id (js "a/b")].
Proof.
  destruct (handleCouncilModelChange_sets_index 1 (js "a/b")
              (with_councilModels [Id (js "a/b"); Id (js "c/d")] initial))
    as (_ & Hin & _).
  apply Hin; [simpl; lia|].
  repeat constructor; discriminate.
Defined.

(** C5: with exactly one member the remove buttons are disabled: pressing
    one, of whatever row, leaves the roster (and the rest of the state) as
    it is. *)
Theorem remove_member_button_refused_on_single_member (r : State) (index : nat) :
  length (councilModels r) = 1%nat ->
  exec (remove_member_button r index) r = (r, []) /\
  councilModels (fst (exec (remove_member_button r index) r)) = councilModels r.
Proof.
  intros H. unfold remove_member_button, button. rewrite H. done.
Qed.

Lemma remove_member_button_refused_on_single_member_witness :
  length (councilModels (with_councilModels [Id (js "a/b")] initial)) = 1%nat /\
  councilModels
    (fst (exec (remove_member_button (with_councilModels [Id (js "a/b")] initial) 0)
            (with_councilModels [Id (js "a/b")] initial)))
  = [Id (js "a/b")].
Proof.
  split; [reflexivity|].
  apply (remove_member_button_refused_on_single_member
           (with_councilModels [Id (js "a/b")] initial) 0).
  reflexivity.
Defined.

(** The handler alone has no such guard: it empties a roster of one. *)
Lemma handleRemoveCouncilMember_unguarded (e : slot) (st : State) :
  councilModels (fst (exec (handleRemoveCouncilMember 0) (with_councilModels [e] st))) = [].
Proof. by destruct e. Qed.

Lemma filter_index_from_above (i index : nat) (roster : list slot) :
  index < i -> hole_free roster ->
  filter_index_from i (fun j => negb (j =? index)) roster = roster.
Proof.
  intros Hlt Hfree. revert i Hlt.
  induction Hfree as [|e l He _ IH]; intros i Hlt; [done|].
  simpl. replace (i =? index) with false by (symmetry; apply Nat.eqb_neq; lia).
  simpl. rewrite IH by lia. by destruct e.
Qed.

Lemma filter_index_from_length (i index : nat) (roster : list slot) :
  hole_free roster ->
  length roster <= S (length (filter_index_from i (fun j => negb (j =? index)) roster)).
Proof.
  intros Hfree. revert i.
  induction Hfree as [|e l He Hl IH]; intros i; [simpl; lia|].
  simpl. destruct (Nat.eqb_spec i index) as [->|Hne]; simpl.
  - rewrite (filter_index_from_above (S index) index l) by (done || lia).
    destruct e; [done|lia|lia].
  - specialize (IH (S i)). destruct e; [done|simpl; lia|simpl; lia].
Qed.

(** Pressing a remove button never empties a roster without holes. *)
Lemma remove_member_button_keeps_one (r : State) (index : nat) :
  hole_free (councilModels r) -> 1 <= length (councilModels r) ->
  1 <= length (councilModels (fst (exec (remove_member_button r index) r))).
Proof.
  intros Hfree Hlen. unfold remove_member_button, button.
  destruct (Nat.leb_spec (length (councilModels r)) 1) as [Hle|Hgt]; [done|].
  unfold exec, handleRemoveCouncilMember, set. simpl.
  destruct r; simpl in *. unfold filter_index.
  pose proof (filter_index_from_length 0 index _ Hfree). lia.
Qed.

Lemma remove_member_button_keeps_one_witness :
  1 <= length
         (councilModels
            (fst (exec (remove_member_button
                          (with_councilModels [Id (js "a/b"); Id (js "c/d")] initial) 0)
                    (with_councilModels [Id (js "a/b"); Id (js "c/d")] initial)))).
Proof.
  apply (remove_member_button_keeps_one
           (with_councilModels [Id (js "a/b"); Id (js "c/d")] initial) 0).
  - repeat constructor; discriminate.
  - simpl. lia.
Defined.

(** With nothing to offer, adding a member changes nothing: the handler
    returns at once, and the button is disabled. *)
Lemma handleAddCouncilMember_empty_catalog (r st : State) :
  filteredModels r = [] ->
  exec (handleAddCouncilMember r) st = (st, []) /\
  exec (add_member_button r) st = (st, []).
Proof.
  intros H. unfold add_member_button, button, handleAddCouncilMember.
  rewrite H. by destruct st.
Qed.

Lemma handleAddCouncilMember_empty_catalog_witness :
  exec (handleAddCouncilMember (with_councilModels [Id (js "a/b")] initial))
    (with_councilModels [Id (js "a/b")] initial)
  = (with_councilModels [Id (js "a/b")] initial, []).
Proof.
  apply (handleAddCouncilMember_empty_catalog
           (with_councilModels [Id (js "a/b")] initial)
           (with_councilModels [Id (js "a/b")] initial)).
  reflexivity.
Defined.

End Roster.

(** ** The chairman selector (Settings.jsx) *)

Section Chairman.

Lemma chairmanModels_not_free (r : State) :
  Forall (fun m => is_free m = false) (chairmanModels r).
Proof.
  unfold chairmanModels. apply Forall_forall. intros m Hm.
  apply list_elem_of_In, filter_In in Hm as [_ Hm]. by apply negb_true_iff.
Qed.

Lemma chairmanModels_with_chairmanModel (c : jsstring) (r : State) :
  chairmanModels (with_chairmanModel c r) = chairmanModels r.
Proof. reflexivity. Qed.

Lemma eligible_options_of_models (r : State) :
  Forall (fun o => exists m, In m (availableModels r) /\ is_free m = false /\
                             value o = id m /\ text o = name m)
         (eligible_options r).
Proof.
  unfold eligible_options, chairmanModels. apply Forall_fmap, Forall_forall.
  intros m Hm. apply list_elem_of_In, filter_In in Hm as [Hin Hfree].
  exists m. simpl. by rewrite <- negb_true_iff.
Qed.

Lemma options_of_value_absent (c : jsstring) (l : list Model) :
  List.find (has_id c) l = None ->
  options_of_value c ((fun model => mkOption (id model) (name model)) <$> l) = [].
Proof.
  unfold options_of_value. induction l as [|m l IH]; [done|].
  simpl. unfold has_id at 1. destruct (bool_decide (id m = c)); [done|]. exact IH.
Qed.

Lemma find_has_id_member (m : Model) (l : list Model) :
  In m l -> exists m', List.find (has_id (id m)) l = Some m'.
Proof.
  induction l as [|x l IH]; [done|]. intros [->|Hin]; simpl.
  - unfold has_id. rewrite bool_decide_eq_true_2 by done. by eexists.
  - destruct (has_id (id m) x); [by eexists|by apply IH].
Qed.

(** C7: no model offered for chairman is free.  When the current value is
    not among the eligible models (a legacy free chairman), it is still
    drawn, as the last option and the only one with that value, marked
    "(not recommended)"; it is not among the options offered for choice,
    and once an eligible model is chosen the options are the eligible ones
    alone. *)
Theorem chairman_options_exclude_free (r : State) :
  Forall (fun m => is_free m = false) (chairmanModels r) /\
  Forall (fun o => exists m, In m (availableModels r) /\ is_free m = false /\
                             value o = id m /\ text o = name m)
         (eligible_options r) /\
  (List.find (has_id (chairmanModel r)) (chairmanModels r) = None ->
   chairman_options r = eligible_options r ++ [legacy_option r] /\
   options_of_value (chairmanModel r) (chairman_options r) = [legacy_option r] /\
   options_of_value (chairmanModel r) (eligible_options r) = [] /\
   value (legacy_option r) = chairmanModel r /\
   exists label, text (legacy_option r) = label ++ not_recommended) /\
  (forall m, In m (chairmanModels r) ->
   chairman_options (with_chairmanModel (id m) r) = eligible_options r).
Proof.
  split; [apply chairmanModels_not_free|].
  split; [apply eligible_options_of_models|].
  split.
  - intros Hfind. unfold chairman_options. rewrite Hfind.
    pose proof (options_of_value_absent _ _ Hfind) as Habs.
    fold (eligible_options r) in Habs.
    split; [done|]. split; [|split; [done|split; [done|by eexists]]].
    unfold options_of_value in *. rewrite List.filter_app, Habs. simpl.
    by rewrite bool_decide_eq_true_2.
  - intros m Hm. unfold chairman_options.
    rewrite chairmanModels_with_chairmanModel.
    destruct (find_has_id_member m _ Hm) as [m' Hm'].
    replace (chairmanModel (with_chairmanModel (id m) r)) with (id m) by by destruct r.
    rewrite Hm'. unfold eligible_options.
    rewrite chairmanModels_with_chairmanModel. apply app_nil_r.
Qed.

Lemma chairman_options_exclude_free_witness :
  chairman_options
    (with_chairmanModel (js "v/free")
       (with_availableModels
          [mkModel (js "v/free") (js "Free One") true;
           mkModel (js "v/paid") (js "Paid One") false] initial))
  = [mkOption (js "v/paid") (js "Paid One");
     mkOption (js "v/free") (js "Free One (not recommended)")].
Proof.
  destruct (chairman_options_exclude_free
              (with_chairmanModel (js "v/free")
                 (with_availableModels
                    [mkModel (js "v/free") (js "Free One") true;
                     mkModel (js "v/paid") (js "Paid One") false] initial)))
    as (_ & _ & Hlegacy & _).
  destruct (Hlegacy eq_refl) as (-> & _). reflexivity.
Defined.

End Chairman.

(** ** The active tab (Stage1.jsx, Stage2.jsx) *)

Import StageTabs.

Section ActiveTab.

Local Open Scope nat_scope.
Context {A : Type}.

Lemma clampEffect_in_range (coll : option (list A)) (k : nat) :
  in_range (mkView coll (clampEffect coll k)).
Proof.
  intros l [= ->] Hne. simpl.
  destruct l as [|x l]; [done|]. simpl length.
  destruct (Nat.leb_spec (S (length l)) k); simpl; lia.
Qed.

Lemma clampEffect_within (l : list A) (k : nat) :
  k < length l -> clampEffect (Some l) k = k.
Proof.
  intros H. unfold clampEffect.
  replace (length l <=? k) with false by (symmetry; apply Nat.leb_gt; lia).
  by rewrite andb_false_r.
Qed.

Lemma step_in_range (v : view A) (e : event A) : in_range v -> in_range (step v e).
Proof.
  intros Hv. destruct e as [coll|index]; simpl.
  - apply clampEffect_in_range.
  - destruct (tab_button_exists v index); [apply clampEffect_in_range|done].
Qed.

Lemma run_in_range (es : list (event A)) (v : view A) : in_range v -> in_range (run v es).
Proof.
  revert v. induction es as [|e es IH]; intros v Hv; [done|].
  apply IH. by apply step_in_range.
Qed.

End ActiveTab.

(** C9, the claim as the specification words it, fails when the collection
    shrinks to nothing: the index, out of range, is left as it was (and the
    view draws nothing). *)
Lemma clampEffect_keeps_index_on_empty :
  activeTab (step (mkView (Some [10; 20; 30]) 2) (NewProps (Some []))) = 2%nat /\
  safeActiveTab (Some (@nil N)) 2 = None /\
  Z.of_nat (clampEffect (Some (@nil N)) 2) <> (Z.of_nat (length (@nil N)) - 1)%Z.
Proof. split; [reflexivity|]. split; [reflexivity|]. simpl. lia. Qed.

(** C9 (amended): whenever the collection has entries and the index is at
    or past its length, the effect puts the index on the last entry; an
    index within the collection is never changed, so nothing is reset while
    entries arrive; an empty or missing collection leaves the index as it
    is.  Hence after every event, new collection or click, the index is
    within the collection whenever it has entries, and the tab drawn is
    always an entry. *)
Theorem clampEffect_clamps (A : Type) (l : list A) (k : nat) :
  (l <> [] -> (length l <= k)%nat -> clampEffect (Some l) k = (length l - 1)%nat) /\
  ((k < length l)%nat -> clampEffect (Some l) k = k) /\
  clampEffect (Some (@nil A)) k = k /\
  clampEffect (@None (list A)) k = k /\
  (forall (first : option (list A)) (events : list (event A)) (l' : list A),
     collection (run (mount first) events) = Some l' -> l' <> [] ->
     (activeTab (run (mount first) events) < length l')%nat) /\
  (forall i, l <> [] ->
     exists j, safeActiveTab (Some l) i = Some j /\ (j < length l)%nat).
Proof.
  split; [|split; [|split; [|split; [|split]]]].
  - intros Hne Hle. unfold clampEffect.
    destruct l as [|x l]; [done|].
    replace (length (x :: l) <=? k)%nat with true by (symmetry; apply Nat.leb_le; lia).
    done.
  - apply clampEffect_within.
  - done.
  - done.
  - intros first events l' Hc Hne.
    by apply (run_in_range events (mount first) (clampEffect_in_range first 0)).
  - intros i Hne. destruct l as [|x l]; [done|].
    eexists. split; [reflexivity|]. simpl length. lia.
Qed.

Lemma clampEffect_clamps_witness :
  clampEffect (Some [10; 20]) 5 = 1%nat /\ clampEffect (Some [10; 20; 30]) 1 = 1%nat.
Proof.
  destruct (clampEffect_clamps N [10; 20] 5) as (Hshrink & _).
  destruct (clampEffect_clamps N [10; 20; 30] 1) as (_ & Hgrow & _).
  split; [apply Hshrink; [done|simpl; lia]|apply Hgrow; simpl; lia].
Defined.

(** * Further properties of the components *)

(** ** Labels of models (Stage1.jsx, Stage2.jsx) *)

Section Labels.

Lemma or_else_filled (x : option jsstring) (c : N) (d : jsstring) :
  exists c' r, or_else x (c :: d) = c' :: r.
Proof. destruct x as [[|a x]|]; simpl; eauto. Qed.

(** The label that Stage 1 derives in place for a tab is the one that
    [getShortModelName] gives in Stage 2, for every model id, missing and
    empty ones included. *)
Theorem displayName_is_getShortModelName (model : option jsstring) :
  Stage1.displayName model = getShortModelName model.
Proof.
  destruct model as [[|c modelId]|]; [reflexivity| |reflexivity].
  unfold Stage1.displayName. simpl or_else.
  by rewrite getShortModelName_unfold.
Qed.

(** A short name is never the empty text, whatever the id: the fallbacks
    to the whole id and to "Unknown" see to it. *)
Theorem getShortModelName_filled (modelId : option jsstring) :
  exists c r, getShortModelName modelId = c :: r.
Proof.
  destruct modelId as [[|c modelId]|]; [by do 2 eexists| |by do 2 eexists].
  rewrite getShortModelName_unfold by done.
  destruct (includes [slash] (c :: modelId)); [apply or_else_filled|].
  destruct (includes [colon] (c :: modelId)); [apply or_else_filled|].
  by do 2 eexists.
Qed.

End Labels.

(** ** More on de-anonymisation (Stage2.jsx) *)

Section DeanonymizeMore.

(** The entries of a mapping are applied one after the other: a mapping
    in two parts gives what the second part gives on the result of the
    first (and no result when the first part has none). *)
Theorem deAnonymizeText_app (text : jsstring)
  (first second : list (jsstring * option jsstring)) :
  deAnonymizeText text (Some (first ++ second))
  = deAnonymizeText text (Some first) ≫= fun t => deAnonymizeText t (Some second).
Proof.
  unfold deAnonymizeText. revert text.
  induction first as [|entry first IH]; intros text; [done|].
  simpl. destruct (deAnonymizeStep text entry) as [t|]; [apply IH|done].
Qed.

Lemma deAnonymizeStep_absent (text label : jsstring) (model : option jsstring) :
  truthy label && is_literal label && negb (includes label text) = true ->
  deAnonymizeStep text (label, model) = Some text.
Proof.
  intros H. apply andb_true_iff in H as [H Hno]. apply andb_true_iff in H as [Hne Hlit].
  apply negb_true_iff in Hno.
  unfold deAnonymizeStep, RegExp_literal. rewrite Hlit. simpl.
  destruct label as [|c label]; [done|]. unfold replace_g.
  by rewrite replace_scan_none.
Qed.

(** A text in which no label of the mapping occurs comes back as it is,
    whatever the models are (the labels being non-empty literal
    patterns). *)
Theorem deAnonymizeText_without_labels (text : jsstring)
  (entries : list (jsstring * option jsstring)) :
  forallb (fun e => truthy (fst e) && is_literal (fst e) && negb (includes (fst e) text))
    entries = true ->
  deAnonymizeText text (Some entries) = Some text.
Proof.
  unfold deAnonymizeText. induction entries as [|[label model] entries IH]; [done|].
  simpl forallb. intros H. apply andb_true_iff in H as [Hhere Hrest].
  change (deAnonymizeEntries text ((label, model) :: entries))
    with (deAnonymizeStep text (label, model) ≫= fun t => deAnonymizeEntries t entries).
  rewrite (deAnonymizeStep_absent _ _ _ Hhere). by apply IH.
Qed.

Lemma deAnonymizeText_without_labels_witness :
  deAnonymizeText (js "Response C is best")
    (Some [(js "Response A", Some (js "x/m1")); (js "Response B", None)])
  = Some (js "Response C is best").
Proof.
  apply (deAnonymizeText_without_labels (js "Response C is best")
           [(js "Response A", Some (js "x/m1")); (js "Response B", None)]).
  reflexivity.
Defined.

Lemma replace_empty_plain (template seen s : jsstring) :
  includes [dollar] template = false ->
  replace_empty template seen s = template ++ concat ((fun c => c :: template) <$> s).
Proof.
  intros Hplain. revert seen. induction s as [|c s IH]; intros seen; simpl.
  - by rewrite (GetSubstitution_plain _ _ _ _ Hplain).
  - rewrite (GetSubstitution_plain _ _ _ _ Hplain). f_equal. f_equal. apply IH.
Qed.

(** An entry whose label is the empty text matches before every code unit
    and at the end: the bolded name is written in all these places and the
    text is kept in between. *)
Theorem deAnonymizeText_empty_label (text : jsstring) (model : option jsstring) :
  includes [dollar] (getShortModelName model) = false ->
  deAnonymizeText text (Some [([], model)])
  = Some (bold (getShortModelName model)
          ++ concat ((fun c => c :: bold (getShortModelName model)) <$> text)).
Proof.
  intros Hplain. unfold deAnonymizeText. simpl. unfold replace_g.
  by rewrite (replace_empty_plain _ _ _ (bold_plain _ Hplain)).
Qed.

Lemma deAnonymizeText_empty_label_witness :
  deAnonymizeText (js "ab") (Some [([], Some (js "x/m"))]) = Some (js "**m**a**m**b**m**").
Proof.
  apply (deAnonymizeText_empty_label (js "ab") (Some (js "x/m"))). reflexivity.
Defined.






End DeanonymizeMore.

(** ** Dollar patterns in a model name (Stage2.jsx) *)

Section DollarPatterns.

Variables pat template : jsstring.

Lemma replace_scan_skip_seen (seen l rest : jsstring) :
  replace_scan pat template seen (length l) (l ++ rest)
  = replace_scan pat template (rev l ++ seen) 0 rest.
Proof.
  revert seen. induction l as [|c l IH]; intros seen; [done|].
  simpl. rewrite IH. by rewrite <- app_assoc.
Qed.

(** The first occurrence, with the text before and after it as the
    substitution sees them. *)
Lemma replace_scan_first_seen (seen p rest : jsstring) :
  pat <> [] ->
  includes pat (p ++ removelast pat) = false ->
  replace_scan pat template seen 0 (p ++ pat ++ rest)
  = p ++ GetSubstitution pat (rev seen ++ p) rest template
      ++ replace_scan pat template (rev pat ++ rev p ++ seen) 0 rest.
Proof.
  intros Hne. revert seen. induction p as [|c p IH]; intros seen Hp.
  - pose proof (startsWith_app pat rest) as Hst.
    pose proof (fun seen l => replace_scan_skip_seen seen l rest) as Hskip.
    pose proof (drop_app_length pat rest) as Hdrop.
    destruct pat as [|c0 pat'] eqn:Epat; [done|].
    simpl app. simpl app in Hst, Hdrop. unfold replace_scan; fold replace_scan.
    rewrite Hst, Hdrop, app_nil_r. f_equal.
    replace (length (c0 :: pat') - 1)%nat with (length pat') by (simpl; lia).
    rewrite Hskip. simpl rev. by rewrite <- !app_assoc.
  - apply includes_cons_false in Hp as [Hhere Hrest].
    simpl app. unfold replace_scan; fold replace_scan.
    assert (startsWith pat (c :: p ++ pat ++ rest) = false) as ->.
    { assert (c :: p ++ pat ++ rest
              = ((c :: p) ++ removelast pat) ++ [List.last pat 0] ++ rest) as ->.
      { rewrite (app_removelast_last 0 Hne) at 1. by rewrite <- !app_assoc. }
      rewrite startsWith_app_l; [exact Hhere|].
      pose proof (f_equal length (app_removelast_last 0 Hne)) as Hlen.
      rewrite length_app in Hlen. rewrite length_app. simpl in *. lia. }
    f_equal. rewrite (IH (c :: seen) Hrest). simpl rev.
    by rewrite <- !app_assoc.
Qed.

End DollarPatterns.

Lemma GetSubstitution_ampersand (matched before after x y : jsstring) :
  includes [dollar] x = false ->
  GetSubstitution matched before after (x ++ [dollar; ampersand] ++ y)
  = x ++ matched ++ GetSubstitution matched before after y.
Proof.
  intros Hx. induction x as [|c x IH].
  - reflexivity.
  - rewrite includes_single_cons in Hx. apply orb_false_iff in Hx as [Hc Hx].
    simpl. rewrite N.eqb_sym, Hc. by rewrite <- (IH Hx).
Qed.

(** The bolded name is a replacement template, not a plain text: where the
    short name of the model holds the two code units "$&", the label that
    was matched is written back in their place.  (The text has one
    occurrence of the label, a non-empty literal pattern.) *)
Theorem deAnonymizeText_dollar_ampersand
  (label before after x y : jsstring) (model : option jsstring) :
  truthy label = true -> is_literal label = true ->
  includes label (before ++ removelast label) = false ->
  includes label after = false ->
  getShortModelName model = x ++ [dollar; ampersand] ++ y ->
  includes [dollar] x = false -> includes [dollar] y = false ->
  deAnonymizeText (before ++ label ++ after) (Some [(label, model)])
  = Some (before ++ js "**" ++ x ++ label ++ y ++ js "**" ++ after).
Proof.
  intros Hne Hlit Hbefore Hafter Hname Hx Hy.
  assert (label <> []) as Hne' by (by destruct label).
  unfold deAnonymizeText. simpl deAnonymizeEntries.
  unfold deAnonymizeStep, RegExp_literal. rewrite Hlit. simpl mbind.
  rewrite (replace_g_nonempty _ _ _ Hne'). f_equal.
  rewrite (replace_scan_first_seen _ _ _ _ _ Hne' Hbefore).
  rewrite (replace_scan_none _ _ _ _ Hafter). f_equal.
  unfold bold. rewrite Hname.
  replace (js "**" ++ (x ++ [dollar; ampersand] ++ y) ++ js "**")
    with ((js "**" ++ x) ++ [dollar; ampersand] ++ (y ++ js "**"))
    by (by rewrite <- !app_assoc).
  rewrite GetSubstitution_ampersand by (by rewrite includes_single_app, Hx).
  rewrite GetSubstitution_plain by (by rewrite includes_single_app, Hy).
  by rewrite <- !app_assoc.
Qed.

Lemma deAnonymizeText_dollar_ampersand_witness :
  deAnonymizeText (js "Response A wins") (Some [(js "Response A", Some (js "x/m$&"))])
  = Some (js "**mResponse A** wins").
Proof.
  apply (deAnonymizeText_dollar_ampersand (js "Response A") [] (js " wins")
           (js "m") [] (Some (js "x/m$&"))); reflexivity.
Defined.

(** ** The tab that is drawn (Stage1.jsx, Stage2.jsx) *)

Section DrawnTab.

Local Open Scope nat_scope.

(** The tab drawn by a render is already the one that the effect is about
    to store: on a collection with entries the clamp of the render and the
    clamp of the effect agree; and a click on a tab button makes that tab
    the stored and the drawn one. *)
Theorem safeActiveTab_is_clampEffect (A : Type) (l : list A) (k : nat) :
  l <> [] ->
  safeActiveTab (Some l) k = Some (clampEffect (Some l) k) /\
  (forall index, index < length l ->
     activeTab (step (mkView (Some l) k) (ClickTab index)) = index /\
     safeActiveTab (Some l) index = Some index).
Proof.
  intros Hne. destruct l as [|x l]; [done|]. split.
  - unfold safeActiveTab, clampEffect. f_equal.
    change (0 <? length (x :: l)) with true. rewrite andb_true_l.
    destruct (Nat.leb_spec (length (x :: l)) k); simpl in *; lia.
  - intros index Hlt. pose proof Hlt as Hb. apply Nat.ltb_lt in Hb.
    unfold step, tab_button_exists. cbn [collection]. rewrite Hb.
    cbn [activeTab]. rewrite clampEffect_within by done.
    split; [reflexivity|]. unfold safeActiveTab. f_equal. simpl in *. lia.
Qed.

Lemma safeActiveTab_is_clampEffect_witness :
  safeActiveTab (Some [10; 20]%N) 7 = Some (clampEffect (Some [10; 20]%N) 7).
Proof.
  by destruct (safeActiveTab_is_clampEffect N [10; 20]%N 7) as [H _].
Defined.

End DrawnTab.

(** ** Testing a key (Settings.jsx) *)

Import Panel.

Section KeyTests.

(** Called with an empty buffer, each of the three test handlers contacts
    nobody: it only sets its own result to the failure "Please enter an API
    key first". *)
Theorem handleTest_empty_key (r st : State) (answer : option TestResult) :
  (tavilyApiKey r = [] ->
   Eff.exec (handleTestTavily r answer) st
   = (with_tavilyTestResult (Some enter_key_first) st, [])) /\
  (braveApiKey r = [] ->
   Eff.exec (handleTestBrave r answer) st
   = (with_braveTestResult (Some enter_key_first) st, [])) /\
  (openrouterApiKey r = [] ->
   Eff.exec (handleTestOpenRouter r answer) st
   = (with_openrouterTestResult (Some enter_key_first) st, [])).
Proof.
  split; [|split]; intros H.
  - unfold handleTestTavily. by rewrite H.
  - unfold handleTestBrave. by rewrite H.
  - unfold handleTestOpenRouter. by rewrite H.
Qed.

Lemma handleTest_empty_key_witness :
  Eff.exec (handleTestTavily initial None) initial
  = (with_tavilyTestResult (Some enter_key_first) initial, []).
Proof.
  by destruct (handleTest_empty_key initial initial None) as (H & _); apply H.
Defined.

(** Called with a key, each test handler asks the collaborator once, with
    the key of the buffer; whatever comes back, the in-flight flag is down
    at the end, and the result is the collaborator's answer, or "Test
    failed" when the call is rejected; nothing else of the state changes. *)
Theorem handleTest_with_key (r st : State) (answer : option TestResult) :
  (tavilyApiKey r <> [] ->
   Eff.exec (handleTestTavily r answer) st
   = (with_isTestingTavily false
        (with_tavilyTestResult (Some (default test_failed answer)) st),
      [TestTavilyKey (tavilyApiKey r)])) /\
  (braveApiKey r <> [] ->
   Eff.exec (handleTestBrave r answer) st
   = (with_isTestingBrave false
        (with_braveTestResult (Some (default test_failed answer)) st),
      [TestBraveKey (braveApiKey r)])) /\
  (openrouterApiKey r <> [] ->
   Eff.exec (handleTestOpenRouter r answer) st
   = (with_isTestingOpenRouter false
        (with_openrouterTestResult (Some (default test_failed answer)) st),
      [TestOpenRouterKey (openrouterApiKey r)])).
Proof.
  split; [|split]; intros H.
  - unfold handleTestTavily. destruct (tavilyApiKey r) as [|c k]; [done|].
    by destruct answer, st.
  - unfold handleTestBrave. destruct (braveApiKey r) as [|c k]; [done|].
    by destruct answer, st.
  - unfold handleTestOpenRouter. destruct (openrouterApiKey r) as [|c k]; [done|].
    by destruct answer, st.
Qed.

Lemma handleTest_with_key_witness :
  Eff.exec (handleTestBrave (with_braveApiKey (js "BSA-1") initial) None)
    (with_braveApiKey (js "BSA-1") initial)
  = (with_isTestingBrave false
       (with_braveTestResult (Some test_failed) (with_braveApiKey (js "BSA-1") initial)),
     [TestBraveKey (js "BSA-1")]).
Proof.
  destruct (handleTest_with_key (with_braveApiKey (js "BSA-1") initial)
              (with_braveApiKey (js "BSA-1") initial) None) as (_ & H & _).
  by apply H.
Defined.

(** A Test button is dead while its buffer is empty or its test is in
    flight: pressing it changes nothing and calls nobody.  So the message
    "Please enter an API key first" is never reached through the button,
    and no second test of a key starts while one is in flight. *)
Theorem test_button_disabled (r st : State) (answer : option TestResult) :
  (tavilyApiKey r = [] \/ isTestingTavily r = true ->
   Eff.exec (test_tavily_button r answer) st = (st, [])) /\
  (braveApiKey r = [] \/ isTestingBrave r = true ->
   Eff.exec (test_brave_button r answer) st = (st, [])) /\
  (openrouterApiKey r = [] \/ isTestingOpenRouter r = true ->
   Eff.exec (test_openrouter_button r answer) st = (st, [])).
Proof.
  split; [|split]; intros [H|H].
  - unfold test_tavily_button. rewrite H, orb_true_r. by destruct st.
  - unfold test_tavily_button. rewrite H. by destruct st.
  - unfold test_brave_button. rewrite H, orb_true_r. by destruct st.
  - unfold test_brave_button. rewrite H. by destruct st.
  - unfold test_openrouter_button. rewrite H, orb_true_r. by destruct st.
  - unfold test_openrouter_button. rewrite H. by destruct st.
Qed.

Lemma test_button_disabled_witness :
  Eff.exec (test_openrouter_button initial None) initial = (initial, []).
Proof.
  destruct (test_button_disabled initial initial None) as (_ & _ & H).
  apply H. by left.
Defined.

End KeyTests.

(** ** Reset to defaults (Settings.jsx) *)

Section Reset.

(** Resetting asks for the defaults and nothing else.  When they arrive
    the roster and the chairman of the draft are the default ones, the rest
    of the state is as before; when the call is rejected the draft is as
    before and the error message is set. *)
Theorem handleResetToDefaults_outcomes (st : State) :
  (forall defaults,
     Eff.exec (handleResetToDefaults (Some defaults)) st
     = (with_chairmanModel (defaults_chairman_model defaults)
          (with_councilModels (Id <$> defaults_council_models defaults) st),
        [GetDefaultSettings])) /\
  Eff.exec (handleResetToDefaults None) st
  = (with_error (Some (js "Failed to load default settings")) st, [GetDefaultSettings]).
Proof. split; [intros defaults|]; by destruct st. Qed.

(** A save that follows a reset sends the default roster and the default
    chairman: the reset changed the draft only, the save carries it to the
    server. *)
Theorem reset_then_save (st : State) (defaults : Defaults) (env : Answers) :
  exists updates later,
    snd (exec (handleSave (fst (Eff.exec (handleResetToDefaults (Some defaults)) st)) env)
           (fst (Eff.exec (handleResetToDefaults (Some defaults)) st)))
    = UpdateSettings updates :: later /\
    updates !! "council_models" = Some (VArray (Id <$> defaults_council_models defaults)) /\
    updates !! "chairman_model" = Some (VString (defaults_chairman_model defaults)) /\
    updates !! "search_provider" = Some (VString (selectedProvider st)).
Proof.
  assert (fst (Eff.exec (handleResetToDefaults (Some defaults)) st)
          = with_chairmanModel (defaults_chairman_model defaults)
              (with_councilModels (Id <$> defaults_council_models defaults) st)) as ->
    by (by destruct st).
  eexists. eexists. split; [apply handleSave_calls|].
  match goal with |- context [build_updates ?s] =>
    destruct (build_updates_draft s) as (Hp & _ & Hc & Hm) end.
  rewrite Hp, Hc, Hm. by destruct st.
Qed.

End Reset.

(** ** Loading (Settings.jsx) *)

Section Loading.

(** The catalog of the state is replaced only by a catalog with entries.
    An empty answer, an answer that reports an error and a rejected call
    leave the previous catalog in place and set no error message; in every
    case the loading flag is down at the end and one call was made. *)
Theorem loadModels_keeps_catalog (env : Answers) (st : State) :
  (forall answer m ms,
     getModels_answer env = Some answer -> models answer = Some (m :: ms) ->
     exec (loadModels env) st
     = (with_isLoadingModels false (with_availableModels (m :: ms) st), [GetModels])) /\
  (getModels_answer env = None \/
   (exists answer, getModels_answer env = Some answer /\
                   (models answer = None \/ models answer = Some [])) ->
   exec (loadModels env) st = (with_isLoadingModels false st, [GetModels])).
Proof.
  unfold exec, loadModels. split.
  - intros [mods err] m ms -> Hm. simpl in Hm. subst mods. by destruct st.
  - intros [->|([mods err] & -> & [Hm|Hm])]; simpl in *; subst; by destruct st.
Qed.

Lemma loadModels_keeps_catalog_witness :
  exec (loadModels (mkAnswers true None (Some (mkModelsAnswer (Some []) None))))
    (with_availableModels [mkModel (js "a/b") (js "B") false] initial)
  = (with_isLoadingModels false
       (with_availableModels [mkModel (js "a/b") (js "B") false] initial), [GetModels]).
Proof.
  destruct (loadModels_keeps_catalog
              (mkAnswers true None (Some (mkModelsAnswer (Some []) None)))
              (with_availableModels [mkModel (js "a/b") (js "B") false] initial))
    as [_ H].
  apply H. right. eexists. split; [reflexivity|by right].
Defined.

(** When the settings arrive, the draft takes the values of the server:
    a missing or empty provider becomes "duckduckgo", a missing fetch count
    becomes 3 while a count of 0 stays 0, a missing roster becomes the empty
    one, and the roster has no hole; the three key buffers are not touched;
    the catalog is asked for after the settings. *)
Theorem loadSettings_success (env : Answers) (st : State) (data : PersistedSettings) :
  getSettings_answer env = Some data ->
  settings (fst (exec (loadSettings env) st)) = Some data /\
  selectedProvider (fst (exec (loadSettings env) st))
    = match search_provider data with
      | Some (c :: p) => c :: p
      | _ => js "duckduckgo"
      end /\
  fullContentResults (fst (exec (loadSettings env) st))
    = match full_content_results data with Some n => n | None => 3%Z end /\
  councilModels (fst (exec (loadSettings env) st))
    = Id <$> match council_models data with Some l => l | None => [] end /\
  hole_free (councilModels (fst (exec (loadSettings env) st))) /\
  chairmanModel (fst (exec (loadSettings env) st))
    = match chairman_model data with Some m => m | None => [] end /\
  (tavilyApiKey (fst (exec (loadSettings env) st)) = tavilyApiKey st /\
   braveApiKey (fst (exec (loadSettings env) st)) = braveApiKey st /\
   openrouterApiKey (fst (exec (loadSettings env) st)) = openrouterApiKey st) /\
  snd (exec (loadSettings env) st) = [GetSettings; GetModels].
Proof.
  intros Hdata.
  assert (hole_free (Id <$> match council_models data with Some l => l | None => [] end))
    as Hfree.
  { apply Forall_fmap, Forall_forall. by intros. }
  unfold exec, loadSettings, loadModels. rewrite Hdata.
  destruct (getModels_answer env) as [[[[|m ms]|] err]|];
    (repeat split; try reflexivity; try exact Hfree).
  all: simpl; by destruct (chairman_model data) as [[|? ?]|].
Qed.

Lemma loadSettings_success_witness :
  fullContentResults
    (fst (exec (loadSettings
                  (mkAnswers true
                     (Some (mkPersisted (Some []) (Some 0%Z) None None true false false))
                     None))
            initial)) = 0%Z /\
  selectedProvider
    (fst (exec (loadSettings
                  (mkAnswers true
                     (Some (mkPersisted (Some []) (Some 0%Z) None None true false false))
                     None))
            initial)) = js "duckduckgo".
Proof.
  destruct (loadSettings_success
              (mkAnswers true
                 (Some (mkPersisted (Some []) (Some 0%Z) None None true false false)) None)
              initial _ eq_refl) as (_ & Hp & Hn & _).
  split; [exact Hn|exact Hp].
Defined.

(** When the settings do not arrive, the only change is the error message
    "Failed to load settings", and the catalog is not asked for. *)
Theorem loadSettings_failure (env : Answers) (st : State) :
  getSettings_answer env = None ->
  exec (loadSettings env) st
  = (with_error (Some (js "Failed to load settings")) st, [GetSettings]).
Proof. intros H. unfold exec, loadSettings. rewrite H. by destruct st. Qed.

Lemma loadSettings_failure_witness :
  exec (loadSettings (mkAnswers true None None)) initial
  = (with_error (Some (js "Failed to load settings")) initial, [GetSettings]).
Proof. by apply (loadSettings_failure (mkAnswers true None None) initial). Defined.

(** Whatever the collaborator answers, a save changes neither the results
    of the key tests nor the free-only filter: a test result stays on
    display after the save has emptied the buffer it was obtained for. *)
Theorem handleSave_keeps_test_results (r st : State) (env : Answers) :
  tavilyTestResult (fst (exec (handleSave r env) st)) = tavilyTestResult st /\
  braveTestResult (fst (exec (handleSave r env) st)) = braveTestResult st /\
  openrouterTestResult (fst (exec (handleSave r env) st)) = openrouterTestResult st /\
  showFreeOnly (fst (exec (handleSave r env) st)) = showFreeOnly st.
Proof.
  unfold exec, handleSave, loadSettings, loadModels.
  destruct (updateSettings_ok env), (getSettings_answer env) as [data|],
    (getModels_answer env) as [[[[|m ms]|] err]|]; by destruct st.
Qed.



End Loading.

(** ** The roster editor over any sequence of events (Settings.jsx) *)

Section RosterEditor.

Local Open Scope nat_scope.

Lemma filter_index_from_hole_free (i : nat) (keep : nat -> bool) (roster : list slot) :
  hole_free roster -> hole_free (filter_index_from i keep roster).
Proof.
  intros Hfree. revert i. induction Hfree as [|e l He _ IH]; intros i; simpl.
  - constructor.
  - destruct e; [done| |]; (destruct (keep i); [constructor; [done|apply IH]|apply IH]).
Qed.

Lemma row_exists_lt (r : State) (index : nat) :
  row_exists r index = true -> index < length (councilModels r).
Proof.
  unfold row_exists. destruct (councilModels r !! index) as [e|] eqn:E; [|done].
  intros _. by apply lookup_lt_Some in E.
Qed.

Lemma councilModels_with_councilModels (l : list slot) (r : State) :
  councilModels (with_councilModels l r) = l.
Proof. by destruct r. Qed.

Lemma roster_step_keeps (r : State) (e : roster_event) :
  hole_free (councilModels r) -> 1 <= length (councilModels r) ->
  hole_free (councilModels (roster_step r e)) /\
  1 <= length (councilModels (roster_step r e)).
Proof.
  intros Hfree Hlen. unfold roster_step, roster_handler.
  destruct e as [index modelId| |index].
  - destruct (row_exists r index) eqn:Hrow; [|done].
    apply row_exists_lt in Hrow.
    rewrite handleCouncilModelChange_exec. cbn [fst].
    rewrite councilModels_with_councilModels. unfold array_set.
    rewrite spread_length, (spread_hole_free _ Hfree).
    apply Nat.ltb_lt in Hrow as Hb. rewrite Hb. split.
    + by apply Forall_insert.
    + by rewrite length_insert.
  - unfold add_member_button, button, handleAddCouncilMember.
    destruct (filteredModels r) as [|m ms]; [done|].
    cbn [length Nat.eqb]. unfold exec, setCouncilModels_prev, set. cbn [fst snd].
    rewrite councilModels_with_councilModels, (spread_hole_free _ Hfree). split.
    + apply Forall_app. split; [done|]. by constructor.
    + rewrite length_app. simpl. lia.
  - destruct (row_exists r index); [|done].
    unfold remove_member_button, button.
    destruct (Nat.leb_spec (length (councilModels r)) 1) as [Hle|Hgt]; [done|].
    unfold exec, handleRemoveCouncilMember, setCouncilModels_prev, set. cbn [fst snd].
    rewrite councilModels_with_councilModels. unfold filter_index. split.
    + by apply filter_index_from_hole_free.
    + pose proof (filter_index_from_length 0 index _ Hfree). lia.
Qed.

(** Whatever the user does in the roster editor (choosing a model in the
    selector of a row, adding a member, pressing the remove button of a
    row), in any order and any number of times, a roster that had at least
    one member and no hole still has at least one member and no hole; so
    the save button is never disabled for want of a member. *)
Theorem roster_editor_keeps_roster (es : list roster_event) (r : State) :
  hole_free (councilModels r) -> 1 <= length (councilModels r) ->
  hole_free (councilModels (roster_run r es)) /\
  1 <= length (councilModels (roster_run r es)) /\
  (length (councilModels (roster_run r es)) =? 0) = false.
Proof.
  revert r. induction es as [|e es IH]; intros r Hfree Hlen.
  - split; [done|]. split; [done|]. apply Nat.eqb_neq. simpl. lia.
  - destruct (roster_step_keeps r e Hfree Hlen) as [Hfree' Hlen'].
    apply (IH (roster_step r e) Hfree' Hlen').
Qed.

Lemma roster_editor_keeps_roster_witness :
  1 <= length
         (councilModels
            (roster_run (with_councilModels [Id (js "a/b"); Id (js "c/d")] initial)
               [RemoveMember 0; RemoveMember 0; SelectModel 0 (js "e/f"); RemoveMember 0])).
Proof.
  destruct (roster_editor_keeps_roster
              [RemoveMember 0; RemoveMember 0; SelectModel 0 (js "e/f"); RemoveMember 0]
              (with_councilModels [Id (js "a/b"); Id (js "c/d")] initial))
    as (_ & H & _); [repeat constructor; discriminate|simpl; lia|exact H].
Defined.

Lemma filter_index_from_delete (i k : nat) (roster : list slot) :
  hole_free roster ->
  filter_index_from i (fun j => negb (j =? i + k)) roster = delete k roster.
Proof.
  intros Hfree. revert i k. induction Hfree as [|e l He Hl IH]; intros i k; [done|].
  simpl. destruct k as [|k].
  - rewrite Nat.add_0_r, Nat.eqb_refl. simpl.
    rewrite (filter_index_from_above (S i) i l) by (done || lia). by destruct e.
  - replace (i =? i + S k) with false by (symmetry; apply Nat.eqb_neq; lia).
    simpl. replace (i + S k) with (S i + k) by lia. rewrite IH. by destruct e.
Qed.

Lemma delete_past_end (roster : list slot) (index : nat) :
  length roster <= index -> delete index roster = roster.
Proof.
  revert index. induction roster as [|e l IH]; intros index H; [by destruct index|].
  destruct index as [|index]; simpl in *; [lia|]. f_equal. apply IH. lia.
Qed.

(** On a roster without holes the remove handler takes out the entry of
    the given index and nothing else, the others keeping their order; an
    index past the end takes out nothing. *)
Theorem handleRemoveCouncilMember_deletes (index : nat) (st : State) :
  hole_free (councilModels st) ->
  councilModels (fst (Settings.exec (handleRemoveCouncilMember index) st))
  = delete index (councilModels st) /\
  (length (councilModels st) <= index ->
   councilModels (fst (Settings.exec (handleRemoveCouncilMember index) st))
   = councilModels st).
Proof.
  intros Hfree.
  assert (councilModels (fst (Settings.exec (handleRemoveCouncilMember index) st))
          = delete index (councilModels st)) as ->.
  { unfold Settings.exec, handleRemoveCouncilMember, setCouncilModels_prev, Settings.set.
    cbn [fst snd]. rewrite councilModels_with_councilModels. unfold filter_index.
    pose proof (filter_index_from_delete 0 index _ Hfree) as H. simpl in H. exact H. }
  split; [done|]. apply delete_past_end.
Qed.

Lemma handleRemoveCouncilMember_deletes_witness :
  councilModels
    (fst (Settings.exec (handleRemoveCouncilMember 1)
            (with_councilModels [Id (js "a/b"); Id (js "c/d"); Id (js "e/f")] initial)))
  = [Id (js "a/b"); Id (js "e/f")].
Proof.
  destruct (handleRemoveCouncilMember_deletes 1
              (with_councilModels [Id (js "a/b"); Id (js "c/d"); Id (js "e/f")] initial))
    as [H _]; [repeat constructor; discriminate|exact H].
Defined.

(** With a filtered catalog that has entries, adding a member puts the id
    of its first model at the end of the roster, whether or not that model
    is a member already; with the free-only filter on that model is a free
    one. *)
Theorem handleAddCouncilMember_appends (r st : State) (m : Model) (ms : list Model) :
  filteredModels r = m :: ms -> hole_free (councilModels st) ->
  councilModels (fst (Settings.exec (add_member_button r) st))
  = councilModels st ++ [Id (id m)] /\
  In m (availableModels r) /\
  (showFreeOnly r = true -> is_free m = true).
Proof.
  intros Hm Hfree. split; [|split].
  - unfold add_member_button, button, handleAddCouncilMember. rewrite Hm.
    cbn [length Nat.eqb]. unfold Settings.exec, setCouncilModels_prev, Settings.set.
    cbn [fst snd]. by rewrite councilModels_with_councilModels, spread_hole_free.
  - unfold filteredModels in Hm. destruct (showFreeOnly r).
    + assert (In m (List.filter is_free (availableModels r))) as Hin
        by (rewrite Hm; by left).
      by apply filter_In in Hin as [? _].
    + rewrite Hm. by left.
  - intros Hfilter. unfold filteredModels in Hm. rewrite Hfilter in Hm.
    assert (In m (List.filter is_free (availableModels r))) as Hin
      by (rewrite Hm; by left).
    by apply filter_In in Hin as [_ ?].
Qed.

Lemma handleAddCouncilMember_appends_witness :
  councilModels
    (fst (Settings.exec
            (add_member_button
               (with_availableModels [mkModel (js "a/b") (js "B") true]
                  (with_councilModels [Id (js "a/b")] initial)))
            (with_availableModels [mkModel (js "a/b") (js "B") true]
               (with_councilModels [Id (js "a/b")] initial))))
  = [Id (js "a/b"); Id (js "a/b")].
Proof.
  destruct (handleAddCouncilMember_appends
              (with_availableModels [mkModel (js "a/b") (js "B") true]
                 (with_councilModels [Id (js "a/b")] initial))
              (with_availableModels [mkModel (js "a/b") (js "B") true]
                 (with_councilModels [Id (js "a/b")] initial))
              (mkModel (js "a/b") (js "B") true) [])
    as [H _]; [reflexivity|repeat constructor; discriminate|exact H].
Defined.

End RosterEditor.

(** ** The selectors and the sections that are drawn (Settings.jsx) *)

Section Drawn.

Lemma find_has_id_value (modelId : jsstring) (l : list Model) (m : Model) :
  List.find (has_id modelId) l = Some m -> In m l /\ id m = modelId.
Proof.
  intros H. apply find_some in H as [Hin Hid]. split; [done|].
  unfold has_id in Hid. by apply bool_decide_eq_true in Hid.
Qed.

(** Each selector has an option for its current value: the selector of a
    council member whatever the free-only filter retains, the selector of
    the chairman whatever the catalog holds.  The other options of a member
    are those of the filtered catalog, all free when the filter is on. *)
Theorem selectors_offer_current_value (r : State) (modelId : jsstring) :
  (exists o, In o (member_options r modelId) /\ value o = modelId) /\
  (exists o, In o (chairman_options r) /\ value o = chairmanModel r) /\
  (forall o, In o (member_options r modelId) ->
     (exists m, In m (availableModels r) /\ value o = id m /\
                (showFreeOnly r = true -> is_free m = true)) \/
     o = kept_member_option r modelId).
Proof.
  split; [|split].
  - unfold member_options.
    destruct (List.find (has_id modelId) (filteredModels r)) as [m|] eqn:E.
    + apply find_has_id_value in E as [Hin Hid].
      exists (member_option m). split; [|done].
      apply in_or_app. left. apply list_elem_of_In, list_elem_of_fmap.
      exists m. split; [done|by apply list_elem_of_In].
    + exists (kept_member_option r modelId). split; [|done].
      apply in_or_app. right. by left.
  - unfold chairman_options.
    destruct (List.find (has_id (chairmanModel r)) (chairmanModels r)) as [m|] eqn:E.
    + apply find_has_id_value in E as [Hin Hid].
      exists (mkOption (id m) (name m)). split; [|done].
      apply in_or_app. left. apply list_elem_of_In, list_elem_of_fmap.
      exists m. split; [done|by apply list_elem_of_In].
    + exists (legacy_option r). split; [|done].
      apply in_or_app. right. by left.
  - intros o Ho. unfold member_options in Ho. apply in_app_or in Ho as [Ho|Ho].
    + left. apply list_elem_of_In, list_elem_of_fmap in Ho as (m & -> & Hm).
      apply list_elem_of_In in Hm. exists m. unfold filteredModels in Hm.
      destruct (showFreeOnly r).
      * apply filter_In in Hm as [Hin Hfree]. done.
      * done.
    + right. destruct (List.find (has_id modelId) (filteredModels r)); [done|].
      by destruct Ho as [<-|[]].
Qed.

(** The section of the Tavily key is drawn exactly for the provider
    "tavily" and the one of the Brave key exactly for "brave", never both,
    and none for "duckduckgo" or an id that is not in the table; the control
    of the full article fetch is drawn exactly when the Tavily section is
    not. *)
Theorem provider_sections (r : State) :
  tavily_section r = bool_decide (selectedProvider r = js "tavily") /\
  brave_section r = bool_decide (selectedProvider r = js "brave") /\
  tavily_section r && brave_section r = false /\
  full_content_section r = negb (tavily_section r).
Proof.
  unfold full_content_section, tavily_section, brave_section,
    selectedProviderInfo, SEARCH_PROVIDERS.
  cbn [List.find provider_id].
  generalize (selectedProvider r). intros sp.
  repeat case_bool_decide; simplify_eq/=; done.
Qed.

End Drawn.

(** ** The sidebar (Sidebar.jsx) *)

Section SidebarFacts.

Import Sidebar.

Lemma delete_clicked_more (es : list (Props * click)) (e : Props * click)
  (convId : jsstring) :
  delete_clicked es convId -> delete_clicked (es ++ [e]) convId.
Proof.
  intros (p & index & conv & Hin & H). exists p, index, conv.
  split; [apply in_or_app; by left|exact H].
Qed.

(** What one click can do: a deletion is asked only for the id that is
    waiting for confirmation, and an id starts waiting only by a click on
    its delete button. *)
Lemma on_click_cases (p : Props) (d : option jsstring) (c : click) :
  (forall convId, In (onDeleteConversation convId) (snd (Eff.exec (on_click p d c) d)) ->
                  d = Some convId) /\
  (forall convId, fst (Eff.exec (on_click p d c) d) = Some convId ->
     d = Some convId \/
     exists index conv, c = DeleteButton index /\ conversations p !! index = Some conv /\
                        isLoading p = false /\ conv_id conv = convId).
Proof.
  destruct c as [|index|index| | | | | |]; unfold on_click, Eff.button, row_onClick,
    delete_button, delete_onClick, cancelDelete, confirmDelete, modal_shown.
  all: try destruct (conversations p !! index) as [conv|] eqn:Econv.
  all: destruct (isLoading p) eqn:Eload, d as [[|a i]|]; cbn.
  all: split; intros convId H; try done; try (by left).
  all: try (by destruct H as [H|[]]).
  all: try (destruct H as [[= <-]|[]]; done).
  all: right; exists index, conv; unfold handleDeleteClick in H; cbn in H;
    injection H as <-; by repeat split.
Qed.

(** Every deletion asked of the parent was confirmed for that very
    conversation: in any sequence of clicks, under any props, an id handed
    to [onDeleteConversation] is the id of a conversation whose delete
    button was clicked earlier in the sequence, while no query was
    running. *)
Theorem deletion_is_confirmed (es : list (Props * click)) (convId : jsstring) :
  In (onDeleteConversation convId) (snd (sidebar_run es)) -> delete_clicked es convId.
Proof.
  cut ((forall id, fst (sidebar_run es) = Some id -> delete_clicked es id) /\
       (forall id, In (onDeleteConversation id) (snd (sidebar_run es)) ->
                   delete_clicked es id)).
  { intros [_ H]. apply H. }
  clear convId. induction es as [|[p c] es IH] using rev_ind.
  - split; intros id H; done.
  - destruct IH as [IHst IHlog]. unfold sidebar_run in *.
    rewrite fold_left_app. cbn [fold_left].
    destruct (fold_left sidebar_step es (None, [])) as [d log].
    cbn [fst snd] in *. unfold sidebar_step. cbn [fst snd].
    destruct (on_click_cases p d c) as [Hcalls Hstate].
    destruct (Eff.exec (on_click p d c) d) as [d' calls]. cbn [fst snd] in *.
    split; intros id H.
    + destruct (Hstate id H) as [->|(index & conv & -> & Hconv & Hload & Hid)].
      * by apply delete_clicked_more, IHst.
      * exists p, index, conv. split; [apply in_or_app; right; by left|done].
    + apply in_app_or in H as [H|H].
      * by apply delete_clicked_more, IHlog.
      * apply delete_clicked_more, IHst. by apply Hcalls.
Qed.

Lemma deletion_is_confirmed_witness :
  delete_clicked
    [(mkProps [mkConversation (js "c1") None 2%Z] None false, DeleteButton 0%nat);
     (mkProps [mkConversation (js "c1") None 2%Z] None true, ConfirmButton)]
    (js "c1").
Proof.
  apply (deletion_is_confirmed
           [(mkProps [mkConversation (js "c1") None 2%Z] None false, DeleteButton 0%nat);
            (mkProps [mkConversation (js "c1") None 2%Z] None true, ConfirmButton)]
           (js "c1")).
  vm_compute. by left.
Defined.

(** The dialog closes on Confirm, on Cancel and on a click beside the box;
    Confirm asks for one deletion, of the waiting id, the two others ask
    for nothing; a click in the box does nothing.  So a second Confirm in a
    row deletes nothing. *)
Theorem dialog_closes (p p' : Props) (d : option jsstring) :
  Eff.exec (on_click p d ConfirmButton) d
  = (if modal_shown d then (None, [onDeleteConversation (default [] d)]) else (d, [])) /\
  Eff.exec (on_click p d CancelButton) d = (if modal_shown d then None else d, []) /\
  Eff.exec (on_click p d ModalOverlay) d = (if modal_shown d then None else d, []) /\
  Eff.exec (on_click p d ModalBox) d = (d, []) /\
  modal_shown (fst (Eff.exec (on_click p d ConfirmButton) d)) = false /\
  snd (Eff.exec (on_click p' (fst (Eff.exec (on_click p d ConfirmButton) d)) ConfirmButton)
         (fst (Eff.exec (on_click p d ConfirmButton) d))) = [].
Proof. by destruct d as [[|c i]|]. Qed.

(** While a query is running the sidebar is inert but for the dialog and
    Stop: a click on New Conversation, on a row, on a delete button or on
    Settings changes nothing and calls nothing.  And a click on a delete
    button never selects the conversation of its row. *)
Theorem navigation_blocked_while_loading (p : Props) (d : option jsstring) (index : nat) :
  (isLoading p = true ->
   Eff.exec (on_click p d NewConversationButton) d = (d, []) /\
   Eff.exec (on_click p d (Row index)) d = (d, []) /\
   Eff.exec (on_click p d (DeleteButton index)) d = (d, []) /\
   Eff.exec (on_click p d SettingsButton) d = (d, [])) /\
  snd (Eff.exec (on_click p d (DeleteButton index)) d) = [].
Proof.
  split.
  - intros Hload. unfold on_click, Eff.button, row_onClick, delete_button.
    rewrite Hload. by destruct (conversations p !! index).
  - unfold on_click, row_onClick, delete_button, delete_onClick.
    by destruct (conversations p !! index), (isLoading p).
Qed.

Lemma navigation_blocked_while_loading_witness :
  Eff.exec (on_click (mkProps [mkConversation (js "c1") None 2%Z] None true) None
              (Row 0%nat)) None = (None, []).
Proof.
  destruct (navigation_blocked_while_loading
              (mkProps [mkConversation (js "c1") None 2%Z] None true) None 0%nat)
    as [H _].
  by destruct (H eq_refl) as (_ & H' & _).
Defined.


End SidebarFacts.

(** ** The examples of the specification *)

Example getShortModelName_openrouter :
  getShortModelName (Some (js "openrouter/gpt-5")) = js "gpt-5".
Proof. reflexivity. Qed.

Example getShortModelName_ollama :
  getShortModelName (Some (js "ollama:llama3")) = js "llama3".
Proof. reflexivity. Qed.

Example deAnonymizeText_wins :
  deAnonymizeText (js "Response A wins")
    (Some [(js "Response A", Some (js "openrouter/gpt-5"))])
  = Some (js "**gpt-5** wins").
Proof. vm_compute. reflexivity. Qed.
